(** * mgob backup pipeline: a shallow embedding of [pkg/backup/local.go]

    The Go package [backup] dumps a MongoDB deployment with the external
    [mongodump] tool, moves the archive into the plan's storage directory,
    prunes old artifacts, optionally encrypts and uploads the archive.  Every
    interesting step talks to the outside world (a shell, the file system, a
    MongoDB server, upload helpers), so the embedding threads an abstract world
    [W] through the code and records every external call, with its outcome,
    in an event log.  The outcomes themselves come from an environment record
    [Env W]: the theorems quantify over all environments, the examples run the
    code in a small scripted one.

    Log output written through logrus is not modelled. *)

From Stdlib Require Import String Ascii ZArith List Bool DecimalString Lia.
Import ListNotations.
Open Scope string_scope.
Open Scope Z_scope.

(** ** Go values used by the package *)

Module Go.

(** Go's [int], [int64] and [time.Duration] are 64-bit two's complement. *)
Definition wrap64 (z : Z) : Z := (z + 2 ^ 63) mod 2 ^ 64 - 2 ^ 63.

(** [%v] / [%d] on an integer. *)
Definition itoa (z : Z) : string := NilZero.string_of_int (Z.to_int z).

Definition newline : string := String (ascii_of_nat 10) EmptyString.

(** [strings.Replace(s, old, new, -1)] for a non-empty [old]: every
    non-overlapping occurrence, scanning from the left.  [skip] counts the
    bytes of an occurrence that has just been replaced. *)
Fixpoint replace_from (old new s : string) (skip : nat) : string :=
  match s with
  | EmptyString => EmptyString
  | String a s' =>
      match skip with
      | S k => replace_from old new s' k
      | O =>
          if String.prefix old s
          then new ++ replace_from old new s' (Nat.pred (String.length old))
          else String a (replace_from old new s' O)
      end
  end.

Definition strings_Replace (s old new : string) : string :=
  replace_from old new s O.

(** [strings.Join]. *)
Fixpoint strings_Join (elems : list string) (sep : string) : string :=
  match elems with
  | [] => ""
  | [e] => e
  | e :: rest => e ++ sep ++ strings_Join rest sep
  end.

(** [filepath.Split] on a slash-separated path: cut right after the last
    separator. *)
Fixpoint filepath_Split (path : string) : string * string :=
  match path with
  | EmptyString => ("", "")
  | String a rest =>
      let (dir, file) := filepath_Split rest in
      match dir with
      | String _ _ => (String a dir, file)
      | EmptyString =>
          if Ascii.eqb a "/"%char then ("/", rest) else ("", String a rest)
      end
  end.

(** Go [error] values.  [External] stands for an error produced outside the
    package (the shell runner, the operating system, the MongoDB driver, an
    upload helper); the flag says whether [os.IsNotExist] recognises it.
    [Errorf] is [fmt.Errorf] with the formatted text, [Wrapf] is
    [errors.Wrapf]/[errors.Wrap] from github.com/pkg/errors, which keeps the
    cause. *)
Inductive error : Type :=
| External (msg : string) (notExist : bool)
| Errorf (msg : string)
| Wrapf (cause : error) (msg : string).

(** The [Error()] method. *)
Fixpoint Error (e : error) : string :=
  match e with
  | External msg _ => msg
  | Errorf msg => msg
  | Wrapf cause msg => msg ++ ": " ++ Error cause
  end.

Definition os_IsNotExist (err : option error) : bool :=
  match err with
  | Some (External _ true) => true
  | _ => false
  end.

(** [time.Time] as nanoseconds since the Unix epoch, [time.Duration] as
    nanoseconds. *)
Definition Time := Z.
Definition Duration := Z.
Definition Time_Unix (t : Time) : Z := t / 1000000000.
Definition Time_UTC (t : Time) : Time := t.
Definition minDuration : Z := - 2 ^ 63.
Definition maxDuration : Z := 2 ^ 63 - 1.
(** [t.Sub(u)] saturates. *)
Definition Time_Sub (t u : Time) : Duration :=
  Z.max minDuration (Z.min maxDuration (t - u)).
Definition Minute : Duration := 60000000000.

End Go.
Import Go.

(** ** Package [config]

    The declarations of package [config] are not part of this file's source;
    the records list the fields [local.go] reads.  The destination and
    encryption sections are pointers whose pointee is only handed on to the
    helpers, so the pointee is an opaque label. *)

Module config.

Inductive Section_ : Type := section (label : string).

Record TargetT : Type := mkTarget {
  Uri : string;
  Host : string;
  Port : Z;
  Username : string;
  Password : string;
  Database : string;
  Collection : string;
  ExcludeCollections : list string;
  ExcludeDatabases : list string;
  Params : string
}.

Record SchedulerT : Type := mkScheduler {
  Timeout : Z;
  Retention : Z
}.

Record Plan : Type := mkPlan {
  Name : string;
  Mode : string;
  Target : TargetT;
  Scheduler : SchedulerT;
  Encryption : option Section_;
  SFTP : option Section_;
  S3 : option Section_;
  GCloud : option Section_;
  Azure : option Section_;
  Rclone : option Section_
}.

Record AppConfig : Type := mkAppConfig {
  TmpPath : string;
  StoragePath : string;
  UseAwsCli : bool
}.

Inductive ModuleConfig : Type := moduleConfig.

End config.

(** ** Package [backup]: data *)

Record Result : Type := mkResult {
  Plan : string;
  Timestamp : Time;
  Status : Z;
  Duration : Go.Duration;
  Name : string;
  Size : Z
}.

Record dumpConfig : Type := mkDumpConfig {
  plan : config.Plan;
  conf : config.AppConfig;
  tmpPath : string;
  storagePath : string;
  planDir : string;
  ts : Time;
  name : string;
  database : string
}.

(** Field updates, written [x.f = v] in Go. *)
Definition set_Name (r : Result) (v : string) : Result :=
  mkResult (Plan r) (Timestamp r) (Status r) (Duration r) v (Size r).
Definition set_Size (r : Result) (v : Z) : Result :=
  mkResult (Plan r) (Timestamp r) (Status r) (Duration r) (Name r) v.
Definition set_Status (r : Result) (v : Z) : Result :=
  mkResult (Plan r) (Timestamp r) v (Duration r) (Name r) (Size r).
Definition set_Duration (r : Result) (v : Go.Duration) : Result :=
  mkResult (Plan r) (Timestamp r) (Status r) v (Name r) (Size r).
Definition set_database (c : dumpConfig) (v : string) : dumpConfig :=
  mkDumpConfig (plan c) (conf c) (tmpPath c) (storagePath c) (planDir c)
               (ts c) (name c) v.
Definition set_name (c : dumpConfig) (v : string) : dumpConfig :=
  mkDumpConfig (plan c) (conf c) (tmpPath c) (storagePath c) (planDir c)
               (ts c) v (database c).

(** ** The outside world *)

Inductive Dest : Type := ToSFTP | ToS3 | ToGCloud | ToAzure | ToRclone.

(** One constructor per kind of external call the package makes. *)
Inductive Call : Type :=
| CombinedOutput (argv : list string) (timeout : Go.Duration)
| RunCmd (argv : list string)
| Remove (path : string)
| WriteFile (path data : string)
| Stat (path : string)
| Encrypt (file encryptedFile : string)
| RemoveUnencrypted (file encryptedFile : string)
| Upload (d : Dest) (file : string)
| Connect (uri : string) (timeout : Go.Duration)
| ListDatabaseNames
| Disconnect.

(** A logged call together with the error it returned ([None] for nil). *)
Definition Event : Type := (Call * option error)%type.

(** What the world answers.  Every operation may change the world.  The
    helpers [encrypt], [removeUnencrypted] and the five uploaders live in
    other files of the package; [filepath_Join] is the library's
    [filepath.Join], which also cleans the path. *)
Record Env (W : Type) : Type := mkEnv {
  time_Now : W -> Time * W;
  sh_CombinedOutput : list string -> Go.Duration -> W -> (string * option error) * W;
  sh_Run : list string -> W -> option error * W;
  os_Remove : string -> W -> option error * W;
  ioutil_WriteFile : string -> string -> W -> option error * W;
  os_Stat : string -> W -> (Z * option error) * W;
  file_exists : string -> W -> bool;
  filepath_Join : string -> string -> string;
  encrypt : string -> string -> config.Plan -> config.AppConfig -> W -> (string * option error) * W;
  removeUnencrypted : string -> string -> W -> W;
  sftpUpload : string -> config.Plan -> W -> (string * option error) * W;
  s3Upload : string -> config.Plan -> Time -> bool -> W -> (string * option error) * W;
  gCloudUpload : string -> config.Plan -> W -> (string * option error) * W;
  azureUpload : string -> config.Plan -> W -> (string * option error) * W;
  rcloneUpload : string -> config.Plan -> W -> (string * option error) * W;
  mongo_Connect : string -> W -> option error * W;
  client_ListDatabaseNames : W -> (list string * option error) * W;
  client_Disconnect : W -> W
}.

Arguments time_Now {W} _ _.
Arguments sh_CombinedOutput {W} _ _ _ _.
Arguments sh_Run {W} _ _ _.
Arguments os_Remove {W} _ _ _.
Arguments ioutil_WriteFile {W} _ _ _ _.
Arguments os_Stat {W} _ _ _.
Arguments file_exists {W} _ _ _.
Arguments filepath_Join {W} _ _ _.
Arguments encrypt {W} _ _ _ _ _ _.
Arguments removeUnencrypted {W} _ _ _ _.
Arguments sftpUpload {W} _ _ _ _.
Arguments s3Upload {W} _ _ _ _ _ _.
Arguments gCloudUpload {W} _ _ _ _.
Arguments azureUpload {W} _ _ _ _.
Arguments rcloneUpload {W} _ _ _ _.
Arguments mongo_Connect {W} _ _ _.
Arguments client_ListDatabaseNames {W} _ _.
Arguments client_Disconnect {W} _ _.

(** ** A state-and-log monad

    A computation takes the world and returns its value, the new world and
    the events it caused, oldest first. *)

Definition M (W A : Type) : Type := W -> A * W * list Event.

Definition ret {W A} (a : A) : M W A := fun w => (a, w, []).

Definition bind {W A B} (m : M W A) (k : A -> M W B) : M W B :=
  fun w =>
    let '(a, w1, e1) := m w in
    let '(b, w2, e2) := k a w1 in
    (b, w2, (e1 ++ e2)%list).

(** An external call: ask the world, log the call and its error. *)
Definition extern {W A} (c : Call) (errOf : A -> option error)
           (f : W -> A * W) : M W A :=
  fun w => let (a, w') := f w in (a, w', [(c, errOf a)]).

(** Reading the clock is not logged. *)
Definition quiet {W A} (f : W -> A * W) : M W A :=
  fun w => let (a, w') := f w in (a, w', []).

Declare Scope go_scope.
Delimit Scope go_scope with go.
Notation "x <- m ;; k" := (bind m (fun x => k))
  (at level 100, m at next level, right associativity) : go_scope.
Notation "' p <- m ;; k" := (bind m (fun x => match x with p => k end))
  (at level 100, p pattern, m at next level, right associativity) : go_scope.
Open Scope go_scope.

Definition value {W A} (r : A * W * list Event) : A := fst (fst r).
Definition world {W A} (r : A * W * list Event) : W := snd (fst r).
Definition events {W A} (r : A * W * list Event) : list Event := snd r.


(** Go's [if err != nil { return ... }]: leave with [onErr e] when [err] is
    an error, go on with [k] otherwise. *)
Definition guard {W A} (err : option error) (onErr : error -> A)
           (k : M W A) : M W A :=
  match err with
  | Some e => ret (onErr e)
  | None => k
  end.

Notation "'on_error' err 'leave' f ;; k" := (guard err f k)
  (at level 100, err at level 0, f at level 0, right associativity) : go_scope.

Definition nonempty (s : string) : bool := negb (s =? EmptyString)%string.

Definition dquote : string := String (ascii_of_nat 34) EmptyString.

(** ** Package [backup]: code *)

Section Backup.

Context {W : Type} (E : Env W).

(** The two mode constants are declared in package [config]. *)
Variables BackupModeSingle BackupModeDatabase : string.

(** [sh.Command(argv...).Run()] *)
Definition run (argv : list string) : M W (option error) :=
  extern (RunCmd argv) (fun e => e) (sh_Run E argv).

Definition stat (path : string) : M W (Z * option error) :=
  extern (Stat path) snd (os_Stat E path).

(** Lines 17-18 of [dump]: the two file names. *)
Definition archiveOf (c : dumpConfig) : string :=
  tmpPath c ++ "/" ++ name c ++ "-" ++ itoa (Time_Unix (ts c)) ++ ".gz".

Definition mlogOf (c : dumpConfig) : string :=
  tmpPath c ++ "/" ++ name c ++ "-" ++ itoa (Time_Unix (ts c)) ++ ".log".

(** Lines 19-50 of [dump]: the shell command, built by appending. *)
Definition dumpCommand (c : dumpConfig) : string :=
  let archive := archiveOf c in
  let t := config.Target (plan c) in
  let dump := "mongodump --archive=" ++ archive ++ " --gzip " in
  let dump :=
    if nonempty (config.Uri t) then
      dump ++ ("--uri " ++ dquote ++ config.Uri t ++ dquote ++ " ")
    else
      let dump :=
        dump ++ ("--host " ++ config.Host t ++ " --port " ++ itoa (config.Port t) ++ " ") in
      if nonempty (config.Username t) && nonempty (config.Password t) then
        dump ++ ("-u " ++ dquote ++ config.Username t ++ dquote ++
                 " -p " ++ dquote ++ config.Password t ++ dquote ++ " ")
      else dump in
  let dump :=
    if nonempty (database c) then dump ++ ("--db " ++ database c ++ " ")
    else dump in
  let dump :=
    if nonempty (config.Collection t)
    then dump ++ ("--collection " ++ config.Collection t ++ " ")
    else dump in
  let dump :=
    fold_left
      (fun dump excludeCollection =>
         if nonempty excludeCollection
         then dump ++ ("--excludeCollection " ++ excludeCollection ++ " ")
         else dump)
      (config.ExcludeCollections t) dump in
  let dump :=
    if nonempty (config.Params t) then dump ++ config.Params t else dump in
  dump.

Definition logToFile (file data : string) : M W (option error) :=
  if (0 <? String.length data)%nat then
    err <- extern (WriteFile file data) (fun e => e) (ioutil_WriteFile E file data) ;;
    on_error err leave (fun e => Some (Wrapf e ("writing log " ++ file ++ " failed"))) ;;
    ret None
  else ret None.

Definition dumpTimeout (c : dumpConfig) : Go.Duration :=
  wrap64 (wrap64 (config.Timeout (config.Scheduler (plan c))) * Minute).

Definition dump (c : dumpConfig) : M W (string * string * option error) :=
  let archive := archiveOf c in
  let mlog := mlogOf c in
  let dump := dumpCommand c in
  ' (output, err) <-
    extern (CombinedOutput ["/bin/sh"; "-c"; dump] (dumpTimeout c)) snd
           (sh_CombinedOutput E ["/bin/sh"; "-c"; dump] (dumpTimeout c)) ;;
  match err with
  | Some e =>
      let ex :=
        if (0 <? String.length output)%nat
        then strings_Replace output newline " "
        else "" in
      _ <- extern (Remove archive) (fun e => e) (os_Remove E archive) ;;
      ret ("", "", Some (Wrapf e ("mongodump log " ++ ex)))
  | None =>
      _ <- logToFile mlog output ;;
      ret (archive, mlog, None)
  end.

Definition applyRetention (path : string) (retention : Z) : M W (option error) :=
  let gz := "cd " ++ path ++ " && rm -f $(ls -1t *.gz *.gz.encrypted | tail -n +"
            ++ itoa (wrap64 (retention + 1)) ++ ")" in
  err <- run ["/bin/sh"; "-c"; gz] ;;
  on_error err leave
    (fun e => Some (Wrapf e ("removing old gz files from " ++ path ++ " failed"))) ;;
  let log := "cd " ++ path ++ " && rm -f $(ls -1t *.log | tail -n +"
             ++ itoa (wrap64 (retention + 1)) ++ ")" in
  err <- run ["/bin/sh"; "-c"; log] ;;
  on_error err leave
    (fun e => Some (Wrapf e ("removing old log files from " ++ path ++ " failed"))) ;;
  ret None.

Definition TmpCleanup (path : string) : M W (option error) :=
  let rm := "find " ++ path ++ " -not -name " ++ dquote ++ "mgob.db" ++ dquote
            ++ " -mtime +" ++ itoa 1 ++ " -type f -delete" in
  err <- run ["/bin/sh"; "-c"; rm] ;;
  on_error err leave (fun e => Some (Wrapf e (path ++ " cleanup failed"))) ;;
  ret None.

Definition errRes (c : dumpConfig) : Result :=
  {| Plan := config.Name (plan c);
     Timestamp := Time_UTC (ts c);
     Status := 500;
     Duration := 0;
     Name := "";
     Size := 0 |}.

(** Upload helpers all have the shape [(output, err) := f(file, plan)]; only
    the error is used by the chain (the output is logged). *)
Definition upload (d : Dest) (file : string)
           (f : W -> (string * option error) * W) : M W (option error) :=
  ' (_, err) <- extern (Upload d file) snd f ;;
  ret err.

Definition runDumpAndUpload (c : dumpConfig) : M W (Result * option error) :=
  ' (archive, mlog, err) <- dump c ;;
  let res := errRes c in
  let res := set_Name res (snd (filepath_Split archive)) in
  on_error err leave (fun e => (res, Some e)) ;;
  err <- run ["mkdir"; "-p"; planDir c] ;;
  on_error err leave
    (fun e => (res, Some (Wrapf e ("creating dir " ++ name c ++ " in "
                                   ++ storagePath c ++ " failed")))) ;;
  ' (fi, err) <- stat archive ;;
  on_error err leave
    (fun e => (res, Some (Wrapf e ("stat file " ++ archive ++ " failed")))) ;;
  let res := set_Size res fi in
  err <- run ["mv"; archive; planDir c] ;;
  on_error err leave
    (fun e => (res, Some (Wrapf e ("moving file from " ++ archive ++ " to "
                                   ++ planDir c ++ " failed")))) ;;
  (* check if log file exists, is not always created *)
  ' (_, serr) <- stat mlog ;;
  err <- (if os_IsNotExist serr then ret None
          else run ["mv"; mlog; planDir c]) ;;
  on_error err leave
    (fun e => (res, Some (Wrapf e ("moving file from " ++ mlog ++ " to "
                                   ++ planDir c ++ " failed")))) ;;
  err <- (if 0 <? config.Retention (config.Scheduler (plan c))
          then applyRetention (planDir c) (config.Retention (config.Scheduler (plan c)))
          else ret None) ;;
  on_error err leave (fun e => (res, Some (Wrapf e "retention job failed"))) ;;
  let file := filepath_Join E (planDir c) (Name res) in
  ' (file, err) <-
    match config.Encryption (plan c) with
    | Some _ =>
        let encryptedFile := file ++ ".encrypted" in
        ' (_, err) <- extern (Encrypt file encryptedFile) snd
                             (encrypt E file encryptedFile (plan c) (conf c)) ;;
        match err with
        | Some e => ret (file, Some e)
        | None =>
            _ <- extern (RemoveUnencrypted file encryptedFile) (fun _ => None)
                        (fun w => (tt, removeUnencrypted E file encryptedFile w)) ;;
            ret (encryptedFile, None)
        end
    | None => ret (file, None)
    end ;;
  on_error err leave (fun e => (res, Some e)) ;;
  err <- match config.SFTP (plan c) with
         | Some _ => upload ToSFTP file (sftpUpload E file (plan c))
         | None => ret None
         end ;;
  on_error err leave (fun e => (res, Some e)) ;;
  err <- match config.S3 (plan c) with
         | Some _ => upload ToS3 file
                       (s3Upload E file (plan c) (ts c) (config.UseAwsCli (conf c)))
         | None => ret None
         end ;;
  on_error err leave (fun e => (res, Some e)) ;;
  err <- match config.GCloud (plan c) with
         | Some _ => upload ToGCloud file (gCloudUpload E file (plan c))
         | None => ret None
         end ;;
  on_error err leave (fun e => (res, Some e)) ;;
  err <- match config.Azure (plan c) with
         | Some _ => upload ToAzure file (azureUpload E file (plan c))
         | None => ret None
         end ;;
  on_error err leave (fun e => (res, Some e)) ;;
  err <- match config.Rclone (plan c) with
         | Some _ => upload ToRclone file (rcloneUpload E file (plan c))
         | None => ret None
         end ;;
  on_error err leave (fun e => (res, Some e)) ;;
  t2 <- quiet (time_Now E) ;;
  let res := set_Status res 200 in
  let res := set_Duration res (Time_Sub t2 (ts c)) in
  ret (res, None).

Definition mongodbDatabaseListTimeout : Go.Duration := 10 * Minute.

(** The deferred [client.Disconnect] is registered only after a successful
    connect and runs when the function returns. *)
Definition getDBNames (c : dumpConfig) : M W (list string * option error) :=
  let uri := config.Uri (config.Target (plan c)) in
  err <- extern (Connect uri mongodbDatabaseListTimeout) (fun e => e)
                (mongo_Connect E uri) ;;
  on_error err leave
    (fun e => ([], Some (Errorf ("failed to connect to MongoDB: " ++ Error e)))) ;;
  ' (dbNames, err) <- extern ListDatabaseNames snd (client_ListDatabaseNames E) ;;
  _ <- extern Disconnect (fun _ => None)
              (fun w => (tt, client_Disconnect E w)) ;;
  on_error err leave
    (fun e => ([], Some (Errorf ("failed to list databases: " ++ Error e)))) ;;
  ret (dbNames, None).

(** The inner loop of [dbLoop]: [true] when it leaves through
    [continue dbLoop]. *)
Fixpoint isExcluded (dbName : string) (excludeDatabases : list string) : bool :=
  match excludeDatabases with
  | [] => false
  | excluded :: rest =>
      if (dbName =? excluded)%string then true else isExcluded dbName rest
  end.

(** The loop labelled [dbLoop], with the three variables it updates. *)
Fixpoint dbLoop (c : dumpConfig) (dbNames : list string)
         (attempts totalSize : Z) (failedDBs : list string)
  : M W (Z * Z * list string) :=
  match dbNames with
  | [] => ret (attempts, totalSize, failedDBs)
  | dbName :: rest =>
      if isExcluded dbName (config.ExcludeDatabases (config.Target (plan c)))
      then dbLoop c rest attempts totalSize failedDBs
      else
        let attempts := wrap64 (attempts + 1) in
        let dc := c in
        let dc := set_database dc dbName in
        let dc := set_name dc (config.Name (plan dc) ++ "-" ++ dbName) in
        ' (res, err) <- runDumpAndUpload c ;;
        match err with
        | Some _ => dbLoop c rest attempts totalSize (failedDBs ++ [dbName])%list
        | None => dbLoop c rest attempts (wrap64 (totalSize + Size res)) failedDBs
        end
  end.

Definition runDumpPerDBAndUpload (c : dumpConfig) : M W (Result * option error) :=
  if (config.Uri (config.Target (plan c)) =? "")%string then
    ret (errRes c,
         Some (Errorf ("must use MongoDB URI with '" ++ config.Mode (plan c)
                       ++ "' backup mode")))
  else
    ' (dbNames, err) <- getDBNames c ;;
    on_error err leave (fun e => (errRes c, Some e)) ;;
    ' (attempts, totalSize, failedDBs) <- dbLoop c dbNames 0 0 [] ;;
    let res := errRes c in
    now <- quiet (time_Now E) ;;
    let res := set_Duration res (Time_Sub now (ts c)) in
    if (0 <? length failedDBs)%nat then
      ret (res,
           Some (Errorf (itoa (Z.of_nat (length failedDBs)) ++ " of "
                         ++ itoa attempts ++ " database backups failed: "
                         ++ strings_Join failedDBs ",")))
    else
      let res := set_Status res 200 in
      let res := set_Size res totalSize in
      ret (res, None).

Definition Run (plan : config.Plan) (conf : config.AppConfig)
           (modules : config.ModuleConfig) : M W (Result * option error) :=
  now <- quiet (time_Now E) ;;
  let c := {| plan := plan;
              database := config.Database (config.Target plan);
              conf := conf;
              tmpPath := config.TmpPath conf;
              storagePath := config.StoragePath conf;
              ts := now;
              planDir := config.StoragePath conf ++ "/" ++ config.Name plan;
              name := config.Name plan |} in
  if (config.Mode plan =? BackupModeDatabase)%string then
    runDumpPerDBAndUpload c
  else if (config.Mode plan =? "")%string
          || (config.Mode plan =? BackupModeSingle)%string then
    if negb (length (config.ExcludeDatabases (config.Target plan)) =? 0)%nat then
      ret (errRes c,
           Some (Errorf ("cannot exclude databases with '" ++ BackupModeSingle
                         ++ "' (default) backup mode")))
    else runDumpAndUpload c
  else
    ret (errRes c, Some (Errorf ("unknown mode: '" ++ config.Mode plan ++ "'"))).

End Backup.

Arguments Run {W} E BackupModeSingle BackupModeDatabase plan conf modules _.
Arguments runDumpPerDBAndUpload {W} E c _.
Arguments runDumpAndUpload {W} E c _.
Arguments dbLoop {W} E c dbNames attempts totalSize failedDBs _.
Arguments getDBNames {W} E c _.
Arguments applyRetention {W} E path retention _.
Arguments dump {W} E c _.

(** ** Views used to state properties *)

(** The pieces [dump] appends to the command, one constructor per
    [dump += ...] statement. *)
Inductive Flag : Type :=
| FlagUri (uri : string)
| FlagHostPort (host : string) (port : Z)
| FlagCredentials (username password : string)
| FlagDb (db : string)
| FlagCollection (collection : string)
| FlagExcludeCollection (collection : string)
| FlagParams (params : string).

Definition renderFlag (f : Flag) : string :=
  match f with
  | FlagUri uri => "--uri " ++ dquote ++ uri ++ dquote ++ " "
  | FlagHostPort host port => "--host " ++ host ++ " --port " ++ itoa port ++ " "
  | FlagCredentials u p =>
      "-u " ++ dquote ++ u ++ dquote ++ " -p " ++ dquote ++ p ++ dquote ++ " "
  | FlagDb db => "--db " ++ db ++ " "
  | FlagCollection col => "--collection " ++ col ++ " "
  | FlagExcludeCollection col => "--excludeCollection " ++ col ++ " "
  | FlagParams params => params
  end.

Fixpoint renderFlags (fl : list Flag) : string :=
  match fl with
  | [] => ""
  | f :: rest => renderFlag f ++ renderFlags rest
  end.

Definition isUriFlag (f : Flag) : bool :=
  match f with FlagUri _ => true | _ => false end.
Definition isHostPortFlag (f : Flag) : bool :=
  match f with FlagHostPort _ _ => true | _ => false end.
Definition isCredentialsFlag (f : Flag) : bool :=
  match f with FlagCredentials _ _ => true | _ => false end.

Definition connectionFlags (t : config.TargetT) : list Flag :=
  if nonempty (config.Uri t) then [FlagUri (config.Uri t)]
  else FlagHostPort (config.Host t) (config.Port t)
       :: (if nonempty (config.Username t) && nonempty (config.Password t)
           then [FlagCredentials (config.Username t) (config.Password t)]
           else []).

Definition filterFlags (c : dumpConfig) : list Flag :=
  let t := config.Target (plan c) in
  ((if nonempty (database c) then [FlagDb (database c)] else [])
   ++ (if nonempty (config.Collection t) then [FlagCollection (config.Collection t)] else [])
   ++ map FlagExcludeCollection (filter nonempty (config.ExcludeCollections t))
   ++ (if nonempty (config.Params t) then [FlagParams (config.Params t)] else []))%list.

Definition dumpFlags (c : dumpConfig) : list Flag :=
  (connectionFlags (config.Target (plan c)) ++ filterFlags c)%list.

(** The same context with other host, port and credentials in the plan's
    target. *)
Definition set_connection (c : dumpConfig) (host : string) (port : Z)
           (username password : string) : dumpConfig :=
  let p := plan c in
  let t := config.Target p in
  let t' := config.mkTarget (config.Uri t) host port username password
                            (config.Database t) (config.Collection t)
                            (config.ExcludeCollections t)
                            (config.ExcludeDatabases t) (config.Params t) in
  let p' := config.mkPlan (config.Name p) (config.Mode p) t' (config.Scheduler p)
                          (config.Encryption p) (config.SFTP p) (config.S3 p)
                          (config.GCloud p) (config.Azure p) (config.Rclone p) in
  mkDumpConfig p' (conf c) (tmpPath c) (storagePath c) (planDir c) (ts c)
               (name c) (database c).

(** Captured output with every line feed turned into a space. *)
Fixpoint foldNewlines (s : string) : string :=
  match s with
  | EmptyString => EmptyString
  | String a s' =>
      String (if Ascii.eqb a (ascii_of_nat 10) then " "%char else a) (foldNewlines s')
  end.

(** The upload calls of a log, in order: destination, file, outcome. *)
Definition uploadsOf (evs : list Event) : list (Dest * string * option error) :=
  flat_map (fun ev : Event =>
              match ev with
              | (Upload d file, err) => [(d, file, err)]
              | _ => []
              end) evs.

(** The shell commands of a log: everything run through [sh.Command]. *)
Definition commandsOf (evs : list Event) : list (list string) :=
  flat_map (fun ev : Event =>
              match ev with
              | (CombinedOutput argv _, _) => [argv]
              | (RunCmd argv, _) => [argv]
              | _ => []
              end) evs.

(** The destinations a plan configures, in the order the chain visits
    them. *)
Definition notNil {A} (p : option A) : bool :=
  match p with Some _ => true | None => false end.

Definition configured (p : config.Plan) : list Dest :=
  ((if notNil (config.SFTP p) then [ToSFTP] else [])
   ++ (if notNil (config.S3 p) then [ToS3] else [])
   ++ (if notNil (config.GCloud p) then [ToGCloud] else [])
   ++ (if notNil (config.Azure p) then [ToAzure] else [])
   ++ (if notNil (config.Rclone p) then [ToRclone] else []))%list.

(** The file the uploaders are given, for an archive whose base name is
    [base]. *)
Definition currentFile {W} (E : Env W) (c : dumpConfig) (base : string) : string :=
  let file := filepath_Join E (planDir c) base in
  match config.Encryption (plan c) with
  | Some _ => file ++ ".encrypted"
  | None => file
  end.

(** The child context the fan-out derives for one database. *)
Definition childContext (c : dumpConfig) (dbName : string) : dumpConfig :=
  set_name (set_database c dbName) (config.Name (plan c) ++ "-" ++ dbName).

(** The two shell commands of [applyRetention]. *)
Definition gzRetentionCommand (path : string) (retention : Z) : list string :=
  ["/bin/sh"; "-c";
   "cd " ++ path ++ " && rm -f $(ls -1t *.gz *.gz.encrypted | tail -n +"
   ++ itoa (wrap64 (retention + 1)) ++ ")"].

Definition logRetentionCommand (path : string) (retention : Z) : list string :=
  ["/bin/sh"; "-c";
   "cd " ++ path ++ " && rm -f $(ls -1t *.log | tail -n +"
   ++ itoa (wrap64 (retention + 1)) ++ ")"].

(** How the upload calls of a log relate to a list [ds] of destinations: the
    calls visit a prefix of [ds] in order, always with [file]; every call but
    the last succeeded; either nothing failed, all of [ds] was visited and
    the attempt has no error, or the last call failed, its error is the
    attempt's error and it is the last event of the log. *)
Definition uploadProtocol (file : string) (ds : list Dest)
           (err : option error) (evs : list Event) : Prop :=
  exists (oks : list Dest) (last : list (Dest * string * option error))
         (rest : list Dest),
    ds = (oks ++ map (fun u => fst (fst u)) last ++ rest)%list /\
    uploadsOf evs = (map (fun d => (d, file, None)) oks ++ last)%list /\
    ((last = [] /\ rest = [] /\ err = None) \/
     (exists d e, last = [(d, file, Some e)] /\ err = Some e /\
                  exists evs0, evs = (evs0 ++ [(Upload d file, Some e)])%list)).

(** The fields of a result that every exit of the chain agrees on. *)
Definition seeded (c : dumpConfig) (base : string)
           (v : Result * option error) : Prop :=
  Plan (fst v) = config.Name (plan c) /\
  Timestamp (fst v) = Time_UTC (ts c) /\
  Name (fst v) = base /\
  Status (fst v) = match snd v with None => 200 | Some _ => 500 end.

Definition chainPost (c : dumpConfig) (base file : string)
           (v : Result * option error) (evs : list Event) : Prop :=
  seeded c base v /\
  (uploadProtocol file (configured (plan c)) (snd v) evs \/
   (uploadsOf evs = [] /\ snd v <> None)).

(** The child attempts of a fan-out over [dbNames] started in [w]: for every
    name that is not excluded, the name and what the chain returned for it.
    The chain is run as [dbLoop] runs it. *)
Fixpoint childRuns {W} (E : Env W) (c : dumpConfig) (dbNames : list string)
         (w : W) : list (string * (Result * option error)) :=
  match dbNames with
  | [] => []
  | dbName :: rest =>
      if isExcluded dbName (config.ExcludeDatabases (config.Target (plan c)))
      then childRuns E c rest w
      else
        let r := runDumpAndUpload E c w in
        (dbName, value r) :: childRuns E c rest (world r)
  end.

Definition childFailed (run : string * (Result * option error)) : bool :=
  match snd (snd run) with Some _ => true | None => false end.

(** Names of the databases whose attempt failed, in order. *)
Definition failedOf (runs : list (string * (Result * option error))) : list string :=
  map fst (filter childFailed runs).

(** Sum, in [int64], of the sizes of the attempts that succeeded, starting
    from [total]. *)
Fixpoint succeededSize (runs : list (string * (Result * option error)))
         (total : Z) : Z :=
  match runs with
  | [] => total
  | run :: rest =>
      if childFailed run then succeededSize rest total
      else succeededSize rest (wrap64 (total + Size (fst (snd run))))
  end.

(** Weakest precondition of a computation started in [w]. *)
Definition wp {W A} (m : M W A) (w : W)
           (Q : A -> W -> list Event -> Prop) : Prop :=
  Q (value (m w)) (world (m w)) (events (m w)).

(** ** A scripted world for running the code

    Files are a list of paths.  A dump command writes the paths in
    [tw_written] and then follows the script [tw_dumps] (captured output,
    failure flag), one entry per command; [tw_runs] scripts the commands run
    through [sh.Command(...).Run()] the same way.  Past the end of a script
    every command succeeds silently.  Uploads to the destinations in
    [tw_rejects] fail.  [tw_locked] makes [os.Remove] refuse. *)

Module TestWorld.

Record T : Type := mk {
  tw_files : list string;
  tw_written : list string;
  tw_dumps : list (string * bool);
  tw_runs : list bool;
  tw_rejects : list Dest;
  tw_dbs : list string;
  tw_locked : bool;
  tw_size : Z;
  tw_now : Time
}.

Definition exitError : error := External "exit status 1" false.
Definition noSuchFile : error := External "no such file or directory" true.
Definition denied : error := External "operation not permitted" false.

Definition hasFile (p : string) (w : T) : bool :=
  existsb (String.eqb p) (tw_files w).

Definition withFiles (w : T) (fs : list string) : T :=
  mk fs (tw_written w) (tw_dumps w) (tw_runs w) (tw_rejects w) (tw_dbs w)
     (tw_locked w) (tw_size w) (tw_now w).

Definition combinedOutput (argv : list string) (timeout : Go.Duration) (w : T)
  : (string * option error) * T :=
  let fs := (tw_written w ++ tw_files w)%list in
  match tw_dumps w with
  | [] => (("", None), withFiles w fs)
  | (out, failed) :: rest =>
      ((out, if failed then Some exitError else None),
       mk fs (tw_written w) rest (tw_runs w) (tw_rejects w) (tw_dbs w)
          (tw_locked w) (tw_size w) (tw_now w))
  end.

Definition runCommand (argv : list string) (w : T) : option error * T :=
  match tw_runs w with
  | [] => (None, w)
  | failed :: rest =>
      (if failed then Some exitError else None,
       mk (tw_files w) (tw_written w) (tw_dumps w) rest (tw_rejects w) (tw_dbs w)
          (tw_locked w) (tw_size w) (tw_now w))
  end.

Definition remove (p : string) (w : T) : option error * T :=
  if tw_locked w then (Some denied, w)
  else if hasFile p w
       then (None, withFiles w (filter (fun q => negb (String.eqb p q)) (tw_files w)))
       else (Some noSuchFile, w).

Definition writeFile (p data : string) (w : T) : option error * T :=
  (None, withFiles w (p :: tw_files w)).

Definition statFile (p : string) (w : T) : (Z * option error) * T :=
  if hasFile p w then ((tw_size w, None), w) else ((0, Some noSuchFile), w).

Definition isDest (d d' : Dest) : bool :=
  match d, d' with
  | ToSFTP, ToSFTP | ToS3, ToS3 | ToGCloud, ToGCloud
  | ToAzure, ToAzure | ToRclone, ToRclone => true
  | _, _ => false
  end.

Definition uploadTo (d : Dest) (w : T) : (string * option error) * T :=
  if existsb (isDest d) (tw_rejects w)
  then (("", Some (External "upload refused" false)), w)
  else (("ok", None), w).

Definition env : Env T := {|
  time_Now := fun w => (tw_now w, w);
  sh_CombinedOutput := combinedOutput;
  sh_Run := runCommand;
  os_Remove := remove;
  ioutil_WriteFile := writeFile;
  os_Stat := statFile;
  file_exists := hasFile;
  filepath_Join := fun dir file => dir ++ "/" ++ file;
  encrypt := fun _ _ _ _ w => (("encrypted", None), w);
  removeUnencrypted := fun _ _ w => w;
  sftpUpload := fun _ _ => uploadTo ToSFTP;
  s3Upload := fun _ _ _ _ => uploadTo ToS3;
  gCloudUpload := fun _ _ => uploadTo ToGCloud;
  azureUpload := fun _ _ => uploadTo ToAzure;
  rcloneUpload := fun _ _ => uploadTo ToRclone;
  mongo_Connect := fun _ w => (None, w);
  client_ListDatabaseNames := fun w => ((tw_dbs w, None), w);
  client_Disconnect := fun w => w
|}.

Definition target (uri : string) : config.TargetT :=
  config.mkTarget uri "localhost" 27017 "" "" "" "" [] [] "".

Definition planOf (mode uri : string) : config.Plan :=
  config.mkPlan "p" mode (target uri) (config.mkScheduler 60 0)
                None None None None None None.

Definition appConf : config.AppConfig := config.mkAppConfig "/tmp" "/storage" false.

(** Start time 1700000000 s; the archive of plan [p] is then
    [/tmp/p-1700000000.gz]. *)
Definition start : Time := 1700000000 * 1000000000.

Definition context (p : config.Plan) : dumpConfig :=
  {| plan := p; conf := appConf; tmpPath := "/tmp"; storagePath := "/storage";
     planDir := "/storage/p"; ts := start; name := "p";
     database := config.Database (config.Target p) |}.

Definition quietWorld : T :=
  mk [] ["/tmp/p-1700000000.gz"] [] [] [] [] false 100 start.

(** The dump command fails after writing part of the archive and printing
    two lines. *)
Definition failingDump : T :=
  mk [] ["/tmp/p-1700000000.gz"] [("a" ++ newline ++ "b", true)] [] [] []
     false 100 start.

(** Two databases; the first dump succeeds, the second fails. *)
Definition twoDatabases : T :=
  mk [] ["/tmp/p-1700000000.gz"] [("", false); ("boom", true)] [] []
     ["A"; "B"] false 100 start.

Definition oneDatabase : T :=
  mk [] ["/tmp/p-1700000000.gz"] [] [] [] ["A"] false 100 start.

(** S3 refuses the upload. *)
Definition s3Down : T :=
  mk [] ["/tmp/p-1700000000.gz"] [] [] [ToS3] [] false 100 start.

Definition everywhere : config.Plan :=
  config.mkPlan "p" "" (target "") (config.mkScheduler 60 0)
                (Some (config.section "enc")) (Some (config.section "sftp"))
                (Some (config.section "s3")) None
                (Some (config.section "azure")) None.

Definition excluding : config.Plan :=
  config.mkPlan "p" ""
                (config.mkTarget "" "localhost" 27017 "" "" "" "" [] ["admin"] "")
                (config.mkScheduler 60 0) None None None None None None.

End TestWorld.

(** ** Further views of a log *)

(** [errors.Cause]: the innermost error of a chain of wraps. *)
Fixpoint rootCause (e : error) : error :=
  match e with
  | Wrapf cause _ => rootCause cause
  | _ => e
  end.

(** The commands started with [CombinedOutput], with their timeouts: in this
    package only the dump command. *)
Definition dumpsOf (evs : list Event) : list (list string * Go.Duration) :=
  flat_map (fun ev : Event =>
              match ev with
              | (CombinedOutput argv timeout, _) => [(argv, timeout)]
              | _ => []
              end) evs.

(** The commands started with [Run] through [/bin/sh]: in the chain only the
    two pruning commands of [applyRetention]. *)
Definition shellRunsOf (evs : list Event) : list (list string) :=
  flat_map (fun ev : Event =>
              match ev with
              | (RunCmd (sh :: rest), _) =>
                  if (sh =? "/bin/sh")%string then [sh :: rest] else []
              | _ => []
              end) evs.


(** Calls whose failure the chain does not look at: writing the dump's log
    file, removing the archive after a failed dump, and the existence check
    of the log file. *)
Definition swallowed (c : dumpConfig) (ev : Event) : bool :=
  match fst ev with
  | WriteFile _ _ => true
  | Remove _ => true
  | Stat path => (path =? mlogOf c)%string
  | _ => false
  end.

Definition succeededOrSwallowed (c : dumpConfig) (ev : Event) : Prop :=
  snd ev = None \/ swallowed c ev = true.

(** The calls that failed and whose failure the chain looks at. *)
Definition failuresOf (c : dumpConfig) (evs : list Event) : list Event :=
  flat_map (fun ev : Event =>
              match snd ev with
              | Some _ => if swallowed c ev then [] else [ev]
              | None => []
              end) evs.


(** Everything in a log that is not an upload call. *)
Definition nonUploadsOf (evs : list Event) : list Event :=
  flat_map (fun ev : Event =>
              match ev with
              | (Upload _ _, _) => []
              | _ => [ev]
              end) evs.

(** The context [Run] builds for a plan at time [now]. *)
Definition initialContext (p : config.Plan) (conf : config.AppConfig)
           (now : Time) : dumpConfig :=
  {| plan := p;
     database := config.Database (config.Target p);
     conf := conf;
     tmpPath := config.TmpPath conf;
     storagePath := config.StoragePath conf;
     ts := now;
     planDir := config.StoragePath conf ++ "/" ++ config.Name p;
     name := config.Name p |}.

Fixpoint hasSlash (s : string) : bool :=
  match s with
  | EmptyString => false
  | String a rest => Ascii.eqb a "/"%char || hasSlash rest
  end.

(** The discovered names the fan-out attempts. *)
Definition attempted (excludeDatabases dbNames : list string) : list string :=
  filter (fun dbName => negb (existsb (String.eqb dbName) excludeDatabases)) dbNames.

(** ** More scripted worlds *)

Module Scenarios.

(** The scripted environment with a MongoDB server that cannot be reached. *)
Definition unreachable : Env TestWorld.T := {|
  time_Now := time_Now TestWorld.env;
  sh_CombinedOutput := sh_CombinedOutput TestWorld.env;
  sh_Run := sh_Run TestWorld.env;
  os_Remove := os_Remove TestWorld.env;
  ioutil_WriteFile := ioutil_WriteFile TestWorld.env;
  os_Stat := os_Stat TestWorld.env;
  file_exists := file_exists TestWorld.env;
  filepath_Join := filepath_Join TestWorld.env;
  encrypt := encrypt TestWorld.env;
  removeUnencrypted := removeUnencrypted TestWorld.env;
  sftpUpload := sftpUpload TestWorld.env;
  s3Upload := s3Upload TestWorld.env;
  gCloudUpload := gCloudUpload TestWorld.env;
  azureUpload := azureUpload TestWorld.env;
  rcloneUpload := rcloneUpload TestWorld.env;
  mongo_Connect := fun _ w => (Some (External "connection refused" false), w);
  client_ListDatabaseNames := client_ListDatabaseNames TestWorld.env;
  client_Disconnect := client_Disconnect TestWorld.env
|}.

(** The dump prints a warning and succeeds. *)
Definition chattyDump : TestWorld.T :=
  TestWorld.mk [] ["/tmp/p-1700000000.gz"] [("warning", false)] [] [] []
               false 100 TestWorld.start.

(** Three databases, all dumps succeed. *)
Definition threeDatabases : TestWorld.T :=
  TestWorld.mk [] ["/tmp/p-1700000000.gz"] [] [] [] ["A"; "B"; "C"]
               false 100 TestWorld.start.

(** The only database is [B]. *)
Definition onlyB : TestWorld.T :=
  TestWorld.mk [] ["/tmp/p-1700000000.gz"] [] [] [] ["B"]
               false 100 TestWorld.start.

(** A per-database plan that excludes [B]. *)
Definition withoutB : config.Plan :=
  config.mkPlan "p" "database"
                (config.mkTarget "mongodb://h" "" 0 "" "" "" "" [] ["B"] "")
                (config.mkScheduler 60 0) None None None None None None.

(** [mkdir] succeeds; the [mv] of the archive, the second command run
    through [Run], fails. *)
Definition moveFails : TestWorld.T :=
  TestWorld.mk [] ["/tmp/p-1700000000.gz"] [] [false; true] [] []
               false 100 TestWorld.start.

(** A plan that keeps two generations. *)
Definition keepTwo : config.Plan :=
  config.mkPlan "p" "" (TestWorld.target "") (config.mkScheduler 60 2)
                None None None None None None.

End Scenarios.

(** * Properties *)

(** ** Reasoning rules for the monad *)

Section Rules.

Context {W : Type}.

Lemma wp_ret {A} (a : A) (w : W) Q : Q a w [] -> wp (ret a) w Q.
Proof. exact (fun H => H). Qed.

Lemma wp_bind {A B} (m : M W A) (k : A -> M W B) (w : W) Q :
  wp m w (fun a w1 e1 => wp (k a) w1 (fun b w2 e2 => Q b w2 (e1 ++ e2)%list)) ->
  wp (bind m k) w Q.
Proof.
  unfold wp, bind, value, world, events.
  destruct (m w) as [[a w1] e1]; simpl.
  destruct (k a w1) as [[b w2] e2]; simpl.
  exact (fun H => H).
Qed.

Lemma wp_conseq {A} (m : M W A) (w : W) (Q Q' : A -> W -> list Event -> Prop) :
  wp m w Q -> (forall a w' evs, Q a w' evs -> Q' a w' evs) -> wp m w Q'.
Proof. unfold wp; intros H HQ; apply HQ, H. Qed.

Lemma wp_seq {A B} (m : M W A) (k : A -> M W B) (w : W) Q1 Q :
  wp m w Q1 ->
  (forall a w1 e1, Q1 a w1 e1 ->
     wp (k a) w1 (fun b w2 e2 => Q b w2 (e1 ++ e2)%list)) ->
  wp (bind m k) w Q.
Proof.
  intros Hm Hk. apply wp_bind. eapply wp_conseq; [exact Hm | exact Hk].
Qed.

Lemma wp_extern {A} (c : Call) (errOf : A -> option error) (f : W -> A * W)
      (w : W) Q :
  (forall a w', f w = (a, w') -> Q a w' [(c, errOf a)]) ->
  wp (extern c errOf f) w Q.
Proof.
  unfold wp, extern, value, world, events. destruct (f w) as [a w']; simpl.
  intros H; apply H; reflexivity.
Qed.

Lemma wp_quiet {A} (f : W -> A * W) (w : W) Q :
  (forall a w', f w = (a, w') -> Q a w' []) -> wp (quiet f) w Q.
Proof.
  unfold wp, quiet, value, world, events. destruct (f w) as [a w']; simpl.
  intros H; apply H; reflexivity.
Qed.

Lemma wp_guard {A} (err : option error) (onErr : error -> A) (k : M W A)
      (w : W) Q :
  (forall e, err = Some e -> Q (onErr e) w []) ->
  (err = None -> wp k w Q) ->
  wp (guard err onErr k) w Q.
Proof.
  destruct err as [e|]; simpl; intros He Hk.
  - apply wp_ret, He; reflexivity.
  - apply Hk; reflexivity.
Qed.

End Rules.

(** ** Dispatch on the plan's mode ([Run]) *)

Section RunProps.

Context {W : Type} (E : Env W).
Variables BackupModeSingle BackupModeDatabase : string.

Lemma eqb_neq_false (a b : string) : a <> b -> (a =? b)%string = false.
Proof. intro H; apply String.eqb_neq; exact H. Qed.

(** C10.  A plan whose mode is none of the empty string, the single-database
    constant and the per-database constant makes [Run] return at once: no
    external call is made (no dump, no enumeration), the result carries the
    plan name and the failure status 500, and the error reads
    [unknown mode: '<mode>']. *)
Theorem Run_unknown_mode plan conf modules (w : W) :
  config.Mode plan <> "" ->
  config.Mode plan <> BackupModeSingle ->
  config.Mode plan <> BackupModeDatabase ->
  let r := Run E BackupModeSingle BackupModeDatabase plan conf modules w in
  events r = [] /\
  world r = snd (time_Now E w) /\
  Status (fst (value r)) = 500 /\
  Plan (fst (value r)) = config.Name plan /\
  Timestamp (fst (value r)) = Time_UTC (fst (time_Now E w)) /\
  snd (value r) = Some (Errorf ("unknown mode: '" ++ config.Mode plan ++ "'")).
Proof.
  intros Hempty Hsingle Hdb.
  unfold Run, bind, quiet, value, world, events.
  destruct (time_Now E w) as [now w1]; simpl.
  rewrite (eqb_neq_false _ _ Hdb), (eqb_neq_false _ _ Hempty),
    (eqb_neq_false _ _ Hsingle); simpl.
  repeat split.
Qed.

(** C8.  In single mode (mode empty or the single-database constant) a
    non-empty database-exclusion list makes [Run] fail with a configuration
    error before anything is done: the event log is empty, so no dump command
    was run.  The two mode constants are distinct case labels of one switch,
    hence the per-database constant is neither empty nor the single one. *)
Theorem Run_single_rejects_exclusions plan conf modules (w : W) :
  BackupModeDatabase <> "" ->
  BackupModeDatabase <> BackupModeSingle ->
  config.Mode plan = "" \/ config.Mode plan = BackupModeSingle ->
  config.ExcludeDatabases (config.Target plan) <> [] ->
  let r := Run E BackupModeSingle BackupModeDatabase plan conf modules w in
  events r = [] /\
  commandsOf (events r) = [] /\
  world r = snd (time_Now E w) /\
  Status (fst (value r)) = 500 /\
  Plan (fst (value r)) = config.Name plan /\
  snd (value r) =
    Some (Errorf ("cannot exclude databases with '" ++ BackupModeSingle
                  ++ "' (default) backup mode")).
Proof.
  intros Hd1 Hd2 Hmode Hexcl.
  unfold Run, bind, quiet, value, world, events.
  destruct (time_Now E w) as [now w1]; simpl.
  assert (Hnot : (config.Mode plan =? BackupModeDatabase)%string = false).
  { apply eqb_neq_false. destruct Hmode as [-> | ->]; congruence. }
  assert (Hyes : ((config.Mode plan =? "")%string
                  || (config.Mode plan =? BackupModeSingle)%string)%bool = true).
  { destruct Hmode as [-> | ->].
    - reflexivity.
    - rewrite String.eqb_refl. apply orb_true_r. }
  rewrite Hnot, Hyes.
  destruct (config.ExcludeDatabases (config.Target plan)) as [|x xs];
    [congruence|]; simpl.
  repeat split.
Qed.

(** C9.  The fan-out with an empty URI fails with a configuration error
    before enumeration: no event at all is logged (no connection, no child
    attempt) and the world is untouched.  This holds for
    [runDumpPerDBAndUpload] itself and for [Run] on a per-database plan. *)
Theorem perDB_requires_uri (c : dumpConfig) (w : W) :
  config.Uri (config.Target (plan c)) = "" ->
  runDumpPerDBAndUpload E c w =
    ((errRes c,
      Some (Errorf ("must use MongoDB URI with '" ++ config.Mode (plan c)
                    ++ "' backup mode"))), w, []) /\
  (forall conf modules,
     config.Mode (plan c) = BackupModeDatabase ->
     let r := Run E BackupModeSingle BackupModeDatabase (plan c) conf modules w in
     events r = [] /\
     world r = snd (time_Now E w) /\
     Status (fst (value r)) = 500 /\
     Plan (fst (value r)) = config.Name (plan c) /\
     snd (value r) =
       Some (Errorf ("must use MongoDB URI with '" ++ config.Mode (plan c)
                     ++ "' backup mode"))).
Proof.
  intros Huri. split.
  - unfold runDumpPerDBAndUpload. rewrite Huri. reflexivity.
  - intros conf0 modules Hmode.
    unfold Run, bind, quiet, value, world, events.
    destruct (time_Now E w) as [now w1]; simpl.
    rewrite Hmode, String.eqb_refl.
    unfold runDumpPerDBAndUpload; simpl. rewrite Huri; simpl.
    rewrite Hmode. repeat split.
Qed.

End RunProps.

(** ** The dump command ([dump], lines 19-50) *)

Section DumpCommand.

Lemma append_assoc (a b c : string) : (a ++ b) ++ c = a ++ (b ++ c).
Proof. induction a as [|x a IH]; simpl; [reflexivity | now rewrite IH]. Qed.

Lemma append_nil_r (a : string) : a ++ "" = a.
Proof. induction a as [|x a IH]; simpl; [reflexivity | now rewrite IH]. Qed.

Lemma nonempty_true (s : string) : nonempty s = true <-> s <> "".
Proof.
  unfold nonempty. rewrite negb_true_iff. apply String.eqb_neq.
Qed.

Lemma nonempty_false (s : string) : nonempty s = false <-> s = "".
Proof.
  unfold nonempty. rewrite negb_false_iff. apply String.eqb_eq.
Qed.

Lemma renderFlags_app (l1 l2 : list Flag) :
  renderFlags (l1 ++ l2) = renderFlags l1 ++ renderFlags l2.
Proof.
  induction l1 as [|f l1 IH]; simpl; [reflexivity|].
  now rewrite IH, append_assoc.
Qed.

(** The loop over [ExcludeCollections] appends one piece per non-empty
    entry, in order. *)
Lemma excludeCollections_fold (l : list string) (acc : string) :
  fold_left
    (fun dump excludeCollection =>
       if nonempty excludeCollection
       then dump ++ ("--excludeCollection " ++ excludeCollection ++ " ")
       else dump) l acc
  = acc ++ renderFlags (map FlagExcludeCollection (filter nonempty l)).
Proof.
  revert acc. induction l as [|x l IH]; intro acc;
    cbn [fold_left filter map renderFlags].
  - now rewrite append_nil_r.
  - rewrite IH. destruct (nonempty x); [|reflexivity].
    cbn [map renderFlags renderFlag]. now rewrite !append_assoc.
Qed.

Lemma dumpCommand_flags (c : dumpConfig) :
  dumpCommand c =
  "mongodump --archive=" ++ archiveOf c ++ " --gzip " ++ renderFlags (dumpFlags c).
Proof.
  unfold dumpCommand, dumpFlags, connectionFlags, filterFlags.
  rewrite excludeCollections_fold.
  destruct (nonempty (config.Uri (config.Target (plan c))));
    [|destruct (nonempty (config.Username (config.Target (plan c)))
               && nonempty (config.Password (config.Target (plan c))))];
    destruct (nonempty (database c));
    destruct (nonempty (config.Collection (config.Target (plan c))));
    destruct (nonempty (config.Params (config.Target (plan c))));
    rewrite ?renderFlags_app; cbn [app renderFlags renderFlag];
    rewrite ?append_assoc, ?append_nil_r; cbn [append];
    rewrite ?append_assoc, ?append_nil_r; reflexivity.
Qed.

(** A piece of the flag list is a contiguous part of the rendered text. *)
Lemma renderFlags_In (f : Flag) (fl : list Flag) :
  In f fl -> exists pre post, renderFlags fl = pre ++ renderFlag f ++ post.
Proof.
  induction fl as [|g fl IH]; simpl; [tauto|].
  intros [-> | Hin].
  - exists "", (renderFlags fl). reflexivity.
  - destruct (IH Hin) as (pre & post & ->).
    exists (renderFlag g ++ pre), post. now rewrite append_assoc.
Qed.

Lemma filterFlags_kinds (c : dumpConfig) (f : Flag) :
  In f (filterFlags c) ->
  isUriFlag f = false /\ isHostPortFlag f = false /\ isCredentialsFlag f = false.
Proof.
  unfold filterFlags. rewrite !in_app_iff, in_map_iff.
  intros [H | [H | [(x & <- & _) | H]]].
  - destruct (nonempty (database c)); simpl in H; [|tauto].
    destruct H as [<- | []]; repeat split.
  - destruct (nonempty (config.Collection (config.Target (plan c))));
      simpl in H; [|tauto].
    destruct H as [<- | []]; repeat split.
  - repeat split.
  - destruct (nonempty (config.Params (config.Target (plan c))));
      simpl in H; [|tauto].
    destruct H as [<- | []]; repeat split.
Qed.

(** C4.  The command is the fixed head followed by the rendered flag list.
    With a non-empty URI the list holds the URI flag and no host/port or
    credential flag, and the command is the same whatever host, port, user
    name and password the plan carries; with an empty URI it holds the
    host/port flag, no URI flag, and a credential flag exactly when user name
    and password are both non-empty.  The flags that are present occur as
    text in the command. *)
Theorem dump_connection_selector (c : dumpConfig) :
  let t := config.Target (plan c) in
  let fl := dumpFlags c in
  dumpCommand c =
    "mongodump --archive=" ++ archiveOf c ++ " --gzip " ++ renderFlags fl /\
  (config.Uri t <> "" ->
     In (FlagUri (config.Uri t)) fl /\
     (exists pre post,
        dumpCommand c =
          pre ++ ("--uri " ++ dquote ++ config.Uri t ++ dquote ++ " ") ++ post) /\
     (forall f, In f fl -> isHostPortFlag f = false /\ isCredentialsFlag f = false) /\
     (forall host port username password,
        dumpCommand (set_connection c host port username password) = dumpCommand c)) /\
  (config.Uri t = "" ->
     In (FlagHostPort (config.Host t) (config.Port t)) fl /\
     (exists pre post,
        dumpCommand c =
          pre ++ ("--host " ++ config.Host t ++ " --port "
                  ++ itoa (config.Port t) ++ " ") ++ post) /\
     (forall f, In f fl -> isUriFlag f = false) /\
     ((exists f, In f fl /\ isCredentialsFlag f = true) <->
      (config.Username t <> "" /\ config.Password t <> "")) /\
     (forall f, In f fl -> isCredentialsFlag f = true ->
                f = FlagCredentials (config.Username t) (config.Password t))).
Proof.
  intros t fl. split; [apply dumpCommand_flags|].
  assert (Htext : forall f, In f fl ->
            exists pre post, dumpCommand c = pre ++ renderFlag f ++ post).
  { intros f Hin. destruct (renderFlags_In f fl Hin) as (pre & post & Heq).
    exists (("mongodump --archive=" ++ archiveOf c ++ " --gzip ") ++ pre), post.
    rewrite dumpCommand_flags. fold fl. rewrite Heq.
    now rewrite !append_assoc. }
  subst fl. unfold dumpFlags, connectionFlags in *. fold t in Htext |- *.
  split.
  - intros Huri. apply nonempty_true in Huri. rewrite Huri in *.
    assert (Hin : In (FlagUri (config.Uri t)) ([FlagUri (config.Uri t)] ++ filterFlags c))
      by (left; reflexivity).
    split; [exact Hin|]. split; [exact (Htext _ Hin)|]. split.
    + intros f [<- | Hf]; [split; reflexivity|].
      apply filterFlags_kinds in Hf. tauto.
    + intros host port username password.
      unfold dumpCommand, set_connection, archiveOf.
      cbn [plan tmpPath name ts database config.Target config.Uri config.Host
           config.Port config.Username config.Password config.Collection
           config.ExcludeCollections config.Params].
      fold t. rewrite Huri. reflexivity.
  - intros Huri. apply nonempty_false in Huri. rewrite Huri in *.
    set (creds := if nonempty (config.Username t) && nonempty (config.Password t)
                  then [FlagCredentials (config.Username t) (config.Password t)]
                  else []) in *.
    assert (Hin : In (FlagHostPort (config.Host t) (config.Port t))
                     ((FlagHostPort (config.Host t) (config.Port t) :: creds)
                      ++ filterFlags c)) by (left; reflexivity).
    split; [exact Hin|]. split; [exact (Htext _ Hin)|].
    assert (Hcreds : forall f, In f creds ->
              f = FlagCredentials (config.Username t) (config.Password t) /\
              config.Username t <> "" /\ config.Password t <> "").
    { intros f Hf. subst creds.
      destruct (nonempty (config.Username t)) eqn:Hu;
        destruct (nonempty (config.Password t)) eqn:Hp; simpl in Hf;
        try tauto.
      destruct Hf as [<- | []].
      apply nonempty_true in Hu, Hp. tauto. }
    split; [|split].
    + intros f [<- | Hf]; [reflexivity|].
      apply in_app_iff in Hf. destruct Hf as [Hf | Hf].
      * apply Hcreds in Hf. destruct Hf as [-> _]. reflexivity.
      * apply filterFlags_kinds in Hf. tauto.
    + split.
      * intros (f & [<- | Hf] & Hk); [discriminate|].
        apply in_app_iff in Hf. destruct Hf as [Hf | Hf].
        -- apply Hcreds in Hf. tauto.
        -- apply filterFlags_kinds in Hf. destruct Hf as (_ & _ & Hf).
           congruence.
      * intros [Hu Hp]. apply nonempty_true in Hu, Hp.
        exists (FlagCredentials (config.Username t) (config.Password t)).
        split; [|reflexivity].
        right. apply in_app_iff. left. subst creds. rewrite Hu, Hp.
        left; reflexivity.
    + intros f [<- | Hf] Hk; [discriminate|].
      apply in_app_iff in Hf. destruct Hf as [Hf | Hf].
      * apply Hcreds in Hf. tauto.
      * apply filterFlags_kinds in Hf. destruct Hf as (_ & _ & Hf). congruence.
Qed.

End DumpCommand.

(** ** The dump executor on failure ([dump], lines 54-63) *)

Section DumpFailure.

Context {W : Type} (E : Env W).

Lemma replace_newlines (s : string) :
  replace_from newline " " s O = foldNewlines s.
Proof.
  induction s as [|a s IH]; [reflexivity|].
  cbn [replace_from foldNewlines].
  unfold newline at 1. cbn [String.prefix].
  destruct (ascii_dec (ascii_of_nat 10) a) as [<- | Hne].
  - replace (String.prefix "" s) with true by (destruct s; reflexivity).
    change (Nat.pred (String.length newline)) with O. rewrite IH.
    rewrite Ascii.eqb_refl. reflexivity.
  - rewrite IH.
    destruct (Ascii.eqb a (ascii_of_nat 10)) eqn:Heq; [|reflexivity].
    apply Ascii.eqb_eq in Heq. congruence.
Qed.

Lemma folded_output (output : string) :
  (if (0 <? String.length output)%nat
   then strings_Replace output newline " " else "") = foldNewlines output.
Proof.
  destruct output as [|a s]; [reflexivity|].
  cbn [String.length Nat.ltb Nat.leb]. apply replace_newlines.
Qed.

(** Folding keeps the length and leaves no line feed behind. *)
Lemma foldNewlines_get (s : string) (n : nat) :
  String.get n (foldNewlines s) <> Some (ascii_of_nat 10).
Proof.
  revert n. induction s as [|a s IH]; intros n; [destruct n; discriminate|].
  cbn [foldNewlines]. destruct n as [|n]; cbn [String.get]; [|apply IH].
  destruct (Ascii.eqb a (ascii_of_nat 10)) eqn:Heq; [discriminate|].
  apply Ascii.eqb_neq in Heq. congruence.
Qed.

(** C5.  When the dump command fails with [e] (non-zero exit and timeout are
    both errors of the runner), [dump] next calls [os.Remove] on the archive
    path and nothing else, discards what the removal returned, and returns
    empty paths with [e] wrapped under the text [mongodump log <output>],
    the output having its line feeds replaced by spaces.  On any system
    where a removal that reports success, or reports that the file is not
    there, leaves no file behind, the archive does not exist afterward in
    those two cases. *)
Theorem dump_failure_cleans_up (c : dumpConfig) (w : W) (e : error) :
  let argv := ["/bin/sh"; "-c"; dumpCommand c] in
  let ran := sh_CombinedOutput E argv (dumpTimeout c) w in
  let removal := os_Remove E (archiveOf c) (snd ran) in
  let r := dump E c w in
  snd (fst ran) = Some e ->
  value r =
    ("", "", Some (Wrapf e ("mongodump log " ++ foldNewlines (fst (fst ran))))) /\
  (forall n, String.get n (foldNewlines (fst (fst ran))) <> Some (ascii_of_nat 10)) /\
  events r =
    [(CombinedOutput argv (dumpTimeout c), Some e);
     (Remove (archiveOf c), fst removal)] /\
  world r = snd removal /\
  ((forall p w0,
      fst (os_Remove E p w0) = None \/ os_IsNotExist (fst (os_Remove E p w0)) = true ->
      file_exists E p (snd (os_Remove E p w0)) = false) ->
   fst removal = None \/ os_IsNotExist (fst removal) = true ->
   file_exists E (archiveOf c) (world r) = false).
Proof.
  intros argv ran removal r Hfail.
  assert (Hr : r = (("", "", Some (Wrapf e ("mongodump log " ++ foldNewlines (fst (fst ran))))),
                    snd removal,
                    [(CombinedOutput argv (dumpTimeout c), Some e);
                     (Remove (archiveOf c), fst removal)])).
  { subst r removal. unfold dump, bind, extern. fold argv. fold ran.
    destruct ran as [[output err] w1]. cbn [fst snd] in *. subst err.
    rewrite folded_output.
    destruct (os_Remove E (archiveOf c) w1) as [rmErr w2]. reflexivity. }
  rewrite Hr. unfold value, world, events; cbn [fst snd].
  repeat split.
  - apply foldNewlines_get.
  - intros Hos Hgone. apply (Hos (archiveOf c) (snd ran)); exact Hgone.
Qed.

End DumpFailure.

(** ** The retention pruner ([applyRetention]) *)

Section Retention.

Context {W : Type} (E : Env W).

(** C2, as the code has it.  The archive-class command always runs first.
    If it fails, [applyRetention] returns its error wrapped and the log-class
    command is not run.  If it succeeds, the log-class command runs, and its
    failure, wrapped, is the result.  So the pruner fails exactly when a
    command it ran failed. *)
Theorem applyRetention_sequence (path : string) (retention : Z) (w : W) :
  let gz := sh_Run E (gzRetentionCommand path retention) w in
  let log := sh_Run E (logRetentionCommand path retention) (snd gz) in
  let r := applyRetention E path retention w in
  (forall e, fst gz = Some e ->
     r = (Some (Wrapf e ("removing old gz files from " ++ path ++ " failed")),
          snd gz,
          [(RunCmd (gzRetentionCommand path retention), Some e)])) /\
  (fst gz = None ->
     events r = [(RunCmd (gzRetentionCommand path retention), None);
                 (RunCmd (logRetentionCommand path retention), fst log)] /\
     world r = snd log /\
     value r =
       match fst log with
       | Some e => Some (Wrapf e ("removing old log files from " ++ path ++ " failed"))
       | None => None
       end).
Proof.
  intros gz log r. subst r log gz.
  unfold applyRetention, run, bind, extern, guard, ret.
  fold (gzRetentionCommand path retention).
  fold (logRetentionCommand path retention).
  destruct (sh_Run E (gzRetentionCommand path retention) w) as [err1 w1].
  cbn [fst snd]. split.
  - intros e ->. reflexivity.
  - intros ->.
    destruct (sh_Run E (logRetentionCommand path retention) w1) as [err2 w2].
    cbn [fst snd]. destruct err2; repeat split.
Qed.

End Retention.

(** C2 as stated fails: with retention 2, when the archive-class command
    fails the log-class command is never attempted. *)
Lemma applyRetention_skips_log_class :
  ~ (forall (W : Type) (E : Env W) (path : string) (retention : Z) (w : W),
       0 < retention ->
       In (logRetentionCommand path retention)
          (commandsOf (events (applyRetention E path retention w)))).
Proof.
  intros H.
  specialize (H TestWorld.T TestWorld.env "/storage/p" 2
                (TestWorld.mk [] [] [] [true] [] [] false 0 0) eq_refl).
  vm_compute in H. destruct H as [H | []]. discriminate H.
Qed.

(** ** The single-database chain ([runDumpAndUpload]) *)

Section Chain.

Context {W : Type} (E : Env W).

Lemma uploadsOf_app (e1 e2 : list Event) :
  uploadsOf (e1 ++ e2) = (uploadsOf e1 ++ uploadsOf e2)%list.
Proof. apply flat_map_app. Qed.

Lemma dump_no_uploads (c : dumpConfig) (w : W) :
  uploadsOf (events (dump E c w)) = [].
Proof.
  unfold dump, logToFile, bind, extern, guard, ret, events.
  destruct (sh_CombinedOutput E _ _ w) as [[output err] w1].
  destruct err as [e|].
  - destruct (os_Remove E _ w1) as [rmErr w2]. reflexivity.
  - destruct (0 <? String.length output)%nat; [|reflexivity].
    destruct (ioutil_WriteFile E _ _ w1) as [[e|] w2]; reflexivity.
Qed.

Lemma applyRetention_no_uploads (path : string) (retention : Z) (w : W) :
  uploadsOf (events (applyRetention E path retention w)) = [].
Proof.
  unfold applyRetention, run, bind, extern, guard, ret, events.
  destruct (sh_Run E _ w) as [[e|] w1]; [reflexivity|].
  destruct (sh_Run E _ w1) as [[e|] w2]; reflexivity.
Qed.

Lemma uploadProtocol_prepend file ds err (e1 e2 : list Event) :
  uploadsOf e1 = [] ->
  uploadProtocol file ds err e2 -> uploadProtocol file ds err (e1 ++ e2).
Proof.
  intros H1 (oks & last & rest & Hds & Hups & Hend).
  exists oks, last, rest. split; [exact Hds|]. split.
  - rewrite uploadsOf_app, H1. exact Hups.
  - destruct Hend as [Hend | (d & e & Hl & He & evs0 & ->)]; [left; exact Hend|].
    right. exists d, e. split; [exact Hl|]. split; [exact He|].
    exists (e1 ++ evs0)%list. apply app_assoc.
Qed.

Lemma chainPost_prepend c base file v (e1 e2 : list Event) :
  uploadsOf e1 = [] -> chainPost c base file v e2 -> chainPost c base file v (e1 ++ e2).
Proof.
  intros H1 [Hs [Hp | [Hn He]]]; (split; [exact Hs|]).
  - left. apply uploadProtocol_prepend; assumption.
  - right. split; [|exact He]. now rewrite uploadsOf_app, H1, Hn.
Qed.

(** A step that uploads nothing leaves the obligation for the rest as it
    is; [Q1] is what the rest may assume about the step's value. *)
Lemma wp_step {A} (m : M W A) (k : A -> M W (Result * option error)) (w : W)
      c base file (Q1 : A -> Prop) :
  wp m w (fun a _ e1 => uploadsOf e1 = [] /\ Q1 a) ->
  (forall a w1, Q1 a ->
     wp (k a) w1 (fun v _ evs => chainPost c base file v evs)) ->
  wp (bind m k) w (fun v _ evs => chainPost c base file v evs).
Proof.
  intros Hm Hk. eapply wp_seq; [exact Hm|].
  cbv beta. intros a w1 e1 [Hq Ha]. eapply wp_conseq; [exact (Hk a w1 Ha)|].
  cbv beta. intros v _ evs Hpost. apply chainPost_prepend; assumption.
Qed.

(** One destination: skipped when not configured; otherwise called with
    [file], and a failure ends the attempt with that error. *)
Lemma upload_step (d : Dest) (file : string) f (cfg : option config.Section_)
      (res : Result) (k : M W (Result * option error)) (w : W)
      (ds : list Dest) (I : Result * option error -> Prop) :
  (forall e, I (res, Some e)) ->
  (forall w', wp k w' (fun v _ evs => I v /\ uploadProtocol file ds (snd v) evs)) ->
  wp (bind (match cfg with
            | Some _ => upload d file f
            | None => ret None
            end)
           (fun err => guard err (fun e => (res, Some e)) k)) w
     (fun v _ evs =>
        I v /\
        uploadProtocol file ((if notNil cfg then [d] else []) ++ ds) (snd v) evs).
Proof.
  intros HI Hk. destruct cfg as [s|]; cbn [notNil].
  - unfold upload. apply wp_bind, wp_bind, wp_extern.
    intros [out err] w1 _. apply wp_ret. cbn [snd].
    apply wp_guard.
    + intros e ->. split; [apply HI|].
      exists [], [(d, file, Some e)], ds. cbn. split; [reflexivity|].
      split; [reflexivity|]. right. exists d, e. repeat split.
      exists []. reflexivity.
    + intros ->. eapply wp_conseq; [apply Hk|]. cbv beta.
      intros v _ evs [Hv (oks & last & rest & Hds & Hups & Hend)].
      split; [exact Hv|].
      exists (d :: oks), last, rest. split; [cbn; now rewrite Hds|].
      split; [unfold uploadsOf in *; cbn [app flat_map map]; now rewrite Hups|].
      destruct Hend as [Hend | (d' & e & Hl & He & evs0 & ->)];
        [left; exact Hend|].
      right. exists d', e. split; [exact Hl|]. split; [exact He|].
      exists ((Upload d file, None) :: evs0). reflexivity.
  - apply wp_bind, wp_ret. cbn [guard app].
    eapply wp_conseq; [apply Hk|]. cbv beta. intros v _ evs Hv. exact Hv.
Qed.

Ltac early :=
  cbv beta; split;
  [ repeat split
  | right; split; [reflexivity | discriminate] ].

(** An external call that is not an upload, whose value the rest of the
    chain may treat as arbitrary. *)
Tactic Notation "quiet_call" "as" simple_intropattern(a) ident(w) :=
  apply wp_step with (Q1 := fun _ => True);
  [ apply wp_extern; intros ? ? _; split; [reflexivity | exact I]
  | intros a w _ ].

Ltac leave_on_error :=
  apply wp_guard; [intros ? _; early | intros _].

Lemma chain_spec (c : dumpConfig) (w : W) :
  wp (runDumpAndUpload E c) w
     (fun v _ evs =>
        chainPost c (snd (filepath_Split (fst (fst (value (dump E c w))))))
                  (currentFile E c (snd (filepath_Split (fst (fst (value (dump E c w)))))))
                  v evs).
Proof.
  unfold runDumpAndUpload.
  apply wp_step with (Q1 := fun a => a = value (dump E c w)).
  { unfold wp. split; [apply dump_no_uploads | reflexivity]. }
  intros a w0 ->.
  destruct (value (dump E c w)) as [[archive mlog] err]. cbn [fst snd].
  clear w. set (base := snd (filepath_Split archive)).
  leave_on_error.
  unfold run, stat.
  (* mkdir -p *)
  quiet_call as err0 w1. leave_on_error.
  (* stat archive *)
  quiet_call as [fi err1] w2. leave_on_error.
  (* mv archive *)
  quiet_call as err2 w3. leave_on_error.
  (* stat mlog, mv mlog *)
  quiet_call as [fi2 serr] w4.
  apply wp_step with (Q1 := fun _ => True).
  { destruct (os_IsNotExist serr);
      [apply wp_ret | apply wp_extern; intros ? ? _]; split;
      solve [reflexivity | exact I]. }
  intros err3 w5 _. leave_on_error.
  (* retention *)
  apply wp_step with (Q1 := fun _ => True).
  { destruct (0 <? config.Retention (config.Scheduler (plan c)));
      [unfold wp; split; [apply applyRetention_no_uploads | exact I]
      | apply wp_ret; split; [reflexivity | exact I]]. }
  intros err4 w6 _. leave_on_error.
  (* encryption *)
  cbn [Name set_Size set_Name].
  apply wp_step
    with (Q1 := fun a : string * option error =>
                  snd a = None -> fst a = currentFile E c base).
  { unfold currentFile.
    destruct (config.Encryption (plan c)) as [enc|].
    - apply wp_bind, wp_extern. intros [out err5] w7 _.
      destruct err5 as [e|].
      + apply wp_ret. split; [reflexivity | discriminate].
      + apply wp_bind, wp_extern. intros _ w8 _. apply wp_ret.
        split; [reflexivity | reflexivity].
    - apply wp_ret. split; [reflexivity | reflexivity]. }
  intros [file err5] w7 Hfile. cbn [fst snd] in Hfile.
  apply wp_guard; [intros ? _; early | intros Hnone].
  rewrite (Hfile Hnone). clear file Hfile Hnone.
  (* uploads *)
  eapply wp_conseq
    with (Q := fun v _ evs =>
                 seeded c base v /\
                 uploadProtocol (currentFile E c base)
                   ((if notNil (config.SFTP (plan c)) then [ToSFTP] else [])
                    ++ (if notNil (config.S3 (plan c)) then [ToS3] else [])
                    ++ (if notNil (config.GCloud (plan c)) then [ToGCloud] else [])
                    ++ (if notNil (config.Azure (plan c)) then [ToAzure] else [])
                    ++ (if notNil (config.Rclone (plan c)) then [ToRclone] else [])
                    ++ []) (snd v) evs).
  2: { cbv beta. intros v _ evs [Hs Hp]. split; [exact Hs|]. left.
       unfold configured. rewrite app_nil_r in Hp. exact Hp. }
  generalize w7. clear. intros w.
  apply upload_step; [intros e; repeat split | clear w; intros w].
  apply upload_step; [intros e; repeat split | clear w; intros w].
  apply upload_step; [intros e; repeat split | clear w; intros w].
  apply upload_step; [intros e; repeat split | clear w; intros w].
  apply upload_step; [intros e; repeat split | clear w; intros w].
  apply wp_bind, wp_quiet. intros t2 w' _. apply wp_ret.
  split; [repeat split|].
  exists [], [], []. repeat split. left. repeat split.
Qed.



(** What [dump] returns: the two paths on success, empty paths on failure. *)
Lemma dump_value (c : dumpConfig) (w : W) :
  (snd (value (dump E c w)) = None /\
   fst (value (dump E c w)) = (archiveOf c, mlogOf c)) \/
  (snd (value (dump E c w)) <> None /\
   fst (value (dump E c w)) = ("", "")).
Proof.
  unfold dump, logToFile, bind, extern, guard, ret, value.
  destruct (sh_CombinedOutput E _ _ w) as [[output err] w1].
  destruct err as [e|].
  - destruct (os_Remove E _ w1) as [rmErr w2]. right.
    split; [discriminate | reflexivity].
  - left. destruct (0 <? String.length output)%nat;
      [destruct (ioutil_WriteFile E _ _ w1) as [[e|] w2]|]; split; reflexivity.
Qed.

(** The chain returns the dump's error unchanged when the dump fails. *)
Lemma chain_dump_error (c : dumpConfig) (w : W) :
  snd (value (dump E c w)) <> None ->
  snd (value (runDumpAndUpload E c w)) = snd (value (dump E c w)).
Proof.
  unfold runDumpAndUpload, bind, value at 1 3.
  destruct (dump E c w) as [[[[archive mlog] err] w1] evs]. cbn [fst snd].
  destruct err as [e|]; [reflexivity | congruence].
Qed.

Lemma chain_seeded (c : dumpConfig) (w : W) :
  seeded c (snd (filepath_Split (fst (fst (value (dump E c w))))))
         (value (runDumpAndUpload E c w)).
Proof. exact (proj1 (chain_spec c w)). Qed.

End Chain.

(** ** The fan-out ([runDumpPerDBAndUpload]) *)

Section Fanout.

Context {W : Type} (E : Env W).

Lemma wrap64_add_l (a b : Z) : wrap64 (wrap64 a + b) = wrap64 (a + b).
Proof.
  unfold wrap64. f_equal.
  replace ((a + 2 ^ 63) mod 2 ^ 64 - 2 ^ 63 + b + 2 ^ 63)
    with ((a + 2 ^ 63) mod 2 ^ 64 + b) by ring.
  rewrite Z.add_mod_idemp_l by (cbv; discriminate).
  f_equal. ring.
Qed.

Lemma failedOf_cons_failed run runs :
  childFailed run = true -> failedOf (run :: runs) = fst run :: failedOf runs.
Proof. unfold failedOf; cbn [filter]; intros ->; reflexivity. Qed.

Lemma failedOf_cons_ok run runs :
  childFailed run = false -> failedOf (run :: runs) = failedOf runs.
Proof. unfold failedOf; cbn [filter]; intros ->; reflexivity. Qed.

Lemma wrap64_idem (a : Z) : wrap64 (wrap64 a) = wrap64 a.
Proof.
  transitivity (wrap64 (wrap64 a + 0)); [now rewrite Z.add_0_r|].
  rewrite wrap64_add_l. now rewrite Z.add_0_r.
Qed.

(** The loop counts one attempt per child run, adds up the sizes of the
    successful ones and collects the names of the failed ones. *)
Lemma dbLoop_value (c : dumpConfig) (dbNames : list string) :
  forall (attempts totalSize : Z) (failedDBs : list string) (w : W),
    wrap64 attempts = attempts ->
    value (dbLoop E c dbNames attempts totalSize failedDBs w) =
      (wrap64 (attempts + Z.of_nat (length (childRuns E c dbNames w))),
       succeededSize (childRuns E c dbNames w) totalSize,
       (failedDBs ++ failedOf (childRuns E c dbNames w))%list).
Proof.
  induction dbNames as [|dbName rest IH];
    intros attempts totalSize failedDBs w Hrange.
  - cbn [dbLoop childRuns length Z.of_nat failedOf filter map succeededSize].
    rewrite Z.add_0_r, Hrange, app_nil_r. reflexivity.
  - cbn [dbLoop childRuns].
    destruct (isExcluded dbName _); [apply IH, Hrange|].
    unfold bind, value at 1.
    destruct (runDumpAndUpload E c w) as [[[res err] w1] evs] eqn:Hrun.
    cbn [value world fst snd length].
    assert (Hstep : forall (t : Z) (f : list string),
              value (dbLoop E c rest (wrap64 (attempts + 1)) t f w1) =
              (wrap64 (attempts + Z.of_nat (S (length (childRuns E c rest w1)))),
               succeededSize (childRuns E c rest w1) t,
               (f ++ failedOf (childRuns E c rest w1))%list)).
    { intros t f. rewrite IH by apply wrap64_idem.
      rewrite wrap64_add_l. do 3 f_equal. lia. }
    destruct err as [e|].
    + specialize (Hstep totalSize (failedDBs ++ [dbName])%list).
      unfold value in Hstep at 1.
      destruct (dbLoop E c rest _ _ _ w1) as [[v w2] evs2].
      cbn [fst snd] in *. rewrite Hstep.
      rewrite failedOf_cons_failed by reflexivity.
      cbn [succeededSize childFailed snd fst]. rewrite <- app_assoc. reflexivity.
    + specialize (Hstep (wrap64 (totalSize + Size res)) failedDBs).
      unfold value in Hstep at 1.
      destruct (dbLoop E c rest _ _ _ w1) as [[v w2] evs2].
      cbn [fst snd] in *. rewrite Hstep.
      rewrite failedOf_cons_ok by reflexivity.
      cbn [succeededSize childFailed snd fst]. reflexivity.
Qed.

(** One iteration of the loop for a database that is not excluded runs the
    chain on the context the fan-out was given; [dbName] only reaches the
    list of failed databases. *)
Lemma dbLoop_runs_parent (c : dumpConfig) (dbName : string)
      (attempts totalSize : Z) (failedDBs : list string) (w : W) :
  isExcluded dbName (config.ExcludeDatabases (config.Target (plan c))) = false ->
  events (dbLoop E c [dbName] attempts totalSize failedDBs w)
    = events (runDumpAndUpload E c w) /\
  world (dbLoop E c [dbName] attempts totalSize failedDBs w)
    = world (runDumpAndUpload E c w).
Proof.
  intros Hin. cbn [dbLoop]. rewrite Hin. unfold bind, events, world.
  destruct (runDumpAndUpload E c w) as [[[res err] w1] evs].
  destruct err; cbn; rewrite app_nil_r; split; reflexivity.
Qed.

Lemma value_bind {A B} (m : M W A) (k : A -> M W B) (w : W) :
  value (bind m k w) = value (k (value (m w)) (world (m w))).
Proof.
  unfold bind, value, world. destruct (m w) as [[a w1] e1]. cbn [fst snd].
  destruct (k a w1) as [[b w2] e2]. reflexivity.
Qed.

(** Every exit of the fan-out returns the plan name and the start time, with
    status 500 next to an error and 200 otherwise. *)
Lemma fanout_seeded (c : dumpConfig) (w : W) :
  seeded c "" (value (runDumpPerDBAndUpload E c w)).
Proof.
  unfold runDumpPerDBAndUpload.
  destruct (config.Uri (config.Target (plan c)) =? "")%string;
    [repeat split|].
  rewrite value_bind.
  destruct (value (getDBNames E c w)) as [dbNames [e|]]; [repeat split|].
  cbn [guard]. rewrite value_bind.
  destruct (value (dbLoop E c dbNames 0 0 [] _)) as [[attempts totalSize] failedDBs].
  rewrite value_bind.
  destruct (0 <? length failedDBs)%nat; repeat split.
Qed.

(** C3, as the code has it.  When enumeration succeeds and at least one
    child attempt fails, the fan-out returns status 500 and an error that
    gives the number of failed attempts, the number of attempts and the
    failed database names joined by commas.  The size of the result is 0:
    the sizes of the attempts that succeeded are added up but not reported. *)
Theorem fanout_partial_failure (c : dumpConfig) (w : W) :
  let listed := getDBNames E c w in
  let runs := childRuns E c (fst (value listed)) (world listed) in
  let r := runDumpPerDBAndUpload E c w in
  config.Uri (config.Target (plan c)) <> "" ->
  snd (value listed) = None ->
  failedOf runs <> [] ->
  snd (value r) =
    Some (Errorf (itoa (Z.of_nat (length (failedOf runs))) ++ " of "
                  ++ itoa (wrap64 (Z.of_nat (length runs)))
                  ++ " database backups failed: "
                  ++ strings_Join (failedOf runs) ",")) /\
  Status (fst (value r)) = 500 /\
  Plan (fst (value r)) = config.Name (plan c) /\
  Size (fst (value r)) = 0.
Proof.
  intros listed runs r Huri Hlist Hfailed.
  subst r. unfold runDumpPerDBAndUpload.
  rewrite (eqb_neq_false _ _ Huri).
  rewrite value_bind. fold listed.
  destruct (value listed) as [dbNames err] eqn:Hv. cbn [fst snd] in *.
  subst err. cbn [guard]. rewrite value_bind.
  rewrite dbLoop_value by reflexivity. fold runs.
  cbn [app Z.add]. rewrite value_bind.
  destruct (failedOf runs) as [|db failed] eqn:Hf; [congruence|].
  cbn [length Nat.ltb Nat.leb]. repeat split.
Qed.

End Fanout.

(** C3 as stated fails: with databases [A] and [B], [A] dumped at size 100
    and the dump of [B] failing, the succeeded sizes add up to 100 but the
    result of the fan-out has size 0. *)
Lemma fanout_size_not_reported :
  ~ (forall (W : Type) (E : Env W) (c : dumpConfig) (w : W),
       let listed := getDBNames E c w in
       let runs := childRuns E c (fst (value listed)) (world listed) in
       config.Uri (config.Target (plan c)) <> "" ->
       snd (value listed) = None ->
       failedOf runs <> [] ->
       Size (fst (value (runDumpPerDBAndUpload E c w))) = succeededSize runs 0).
Proof.
  intros H.
  specialize (H TestWorld.T TestWorld.env
                (TestWorld.context (TestWorld.planOf "database" "mongodb://h"))
                (TestWorld.mk [] ["/tmp/p-1700000000.gz"]
                              [("", false); ("boom", true)] [] [] ["A"; "B"]
                              false 100 TestWorld.start)).
  cbv zeta in H.
  assert (Hsize : 0 = 100); [|discriminate Hsize].
  apply H; vm_compute; [discriminate | reflexivity | discriminate].
Qed.

(** ** Results on failure *)

Section Entry.

Context {W : Type} (E : Env W).
Variables BackupModeSingle BackupModeDatabase : string.

Lemma Run_seeded (p : config.Plan) conf modules (w : W) :
  let r := Run E BackupModeSingle BackupModeDatabase p conf modules w in
  Plan (fst (value r)) = config.Name p /\
  Timestamp (fst (value r)) = Time_UTC (fst (time_Now E w)) /\
  Status (fst (value r)) = match snd (value r) with None => 200 | Some _ => 500 end.
Proof.
  intros r. subst r. unfold Run. rewrite value_bind.
  replace (value (quiet (time_Now E) w)) with (fst (time_Now E w))
    by (unfold quiet, value; destruct (time_Now E w); reflexivity).
  set (c := {| plan := p; conf := conf; tmpPath := config.TmpPath conf;
               storagePath := config.StoragePath conf;
               planDir := config.StoragePath conf ++ "/" ++ config.Name p;
               ts := fst (time_Now E w); name := config.Name p;
               database := config.Database (config.Target p) |}).
  generalize (world (quiet (time_Now E) w)). intros w1.
  destruct (config.Mode p =? BackupModeDatabase)%string.
  - destruct (fanout_seeded E c w1) as (HP & HT & _ & HS). tauto.
  - destruct ((config.Mode p =? "")%string
              || (config.Mode p =? BackupModeSingle)%string)%bool;
      [|repeat split].
    destruct (negb _); [repeat split|].
    destruct (chain_seeded E c w1) as (HP & HT & _ & HS). tauto.
Qed.

(** C7, as the code has it.  [Run] always returns a result next to its
    error, and with an error the result has the plan name, the start time and
    status 500.  In the single-database chain the result's name is the base
    name of the archive path [dump] returned, on every exit: the archive's
    file name once the dump succeeded, whatever fails later, and the empty
    string when the dump itself failed, since [dump] then returns an empty
    path.  A failed chain also returns status 500 and the plan name. *)
Theorem failure_keeps_result (p : config.Plan) conf modules (c : dumpConfig) (w : W) :
  let r := Run E BackupModeSingle BackupModeDatabase p conf modules w in
  let d := dump E c w in
  let s := runDumpAndUpload E c w in
  (snd (value r) <> None ->
     Status (fst (value r)) = 500 /\
     Plan (fst (value r)) = config.Name p /\
     Timestamp (fst (value r)) = Time_UTC (fst (time_Now E w))) /\
  Name (fst (value s)) = snd (filepath_Split (fst (fst (value d)))) /\
  (snd (value d) = None ->
     Name (fst (value s)) = snd (filepath_Split (archiveOf c))) /\
  (snd (value d) <> None ->
     snd (value s) = snd (value d) /\ Name (fst (value s)) = "" /\
     Status (fst (value s)) = 500) /\
  (snd (value s) <> None ->
     Status (fst (value s)) = 500 /\
     Plan (fst (value s)) = config.Name (plan c) /\
     Timestamp (fst (value s)) = Time_UTC (ts c)).
Proof.
  intros r d s. subst r d s.
  destruct (Run_seeded p conf modules w) as (HP & HT & HS).
  destruct (chain_seeded E c w) as (HP' & HT' & HN' & HS').
  split; [|split; [|split; [|split]]].
  - intros Herr. destruct (snd (value (Run _ _ _ _ _ _ _))); [tauto | congruence].
  - exact HN'.
  - intros Hok. rewrite HN'.
    destruct (dump_value E c w) as [[_ Hv] | [Hbad _]];
      [now rewrite Hv | congruence].
  - intros Hbad.
    pose proof (chain_dump_error E c w Hbad) as Herr.
    split; [exact Herr|].
    destruct (dump_value E c w) as [[Hok _] | [_ Hv]]; [congruence|].
    rewrite HN', Hv. split; [reflexivity|].
    rewrite HS', Herr. destruct (snd (value (dump E c w))); [reflexivity | congruence].
  - intros Herr. destruct (snd (value (runDumpAndUpload E c w))); [tauto | congruence].
Qed.

End Entry.

(** C7 as stated fails: when the dump itself fails the name of the result is
    not the base name of the archive.  With the archive
    [/tmp/p-1700000000.gz] and a failing dump command the name is empty. *)
Lemma name_empty_after_failed_dump :
  ~ (forall (W : Type) (E : Env W) (c : dumpConfig) (w : W),
       snd (value (dump E c w)) <> None ->
       Name (fst (value (runDumpAndUpload E c w)))
       = snd (filepath_Split (archiveOf c))).
Proof.
  intros H.
  specialize (H TestWorld.T TestWorld.env
                (TestWorld.context (TestWorld.planOf "" ""))
                TestWorld.failingDump).
  assert (Hname : "" = "p-1700000000.gz"); [|discriminate Hname].
  apply H. vm_compute. discriminate.
Qed.

(** ** The code at work in the scripted world *)

Section Examples.

Import TestWorld.

Lemma hasFile_removed (p : string) (fs : list string) :
  existsb (String.eqb p) (filter (fun q => negb (String.eqb p q)) fs) = false.
Proof.
  induction fs as [|q fs IH]; [reflexivity|].
  cbn [filter]. destruct (String.eqb p q) eqn:Hq; cbn [negb]; [exact IH|].
  cbn [existsb]. now rewrite Hq, IH.
Qed.

(** In the scripted world a removal that succeeds, or finds nothing to
    remove, leaves no file behind. *)
Lemma remove_contract (p : string) (w0 : T) :
  fst (os_Remove env p w0) = None \/
  os_IsNotExist (fst (os_Remove env p w0)) = true ->
  file_exists env p (snd (os_Remove env p w0)) = false.
Proof.
  cbn [os_Remove file_exists env]. unfold remove.
  destruct (tw_locked w0).
  - cbn. intros [H | H]; discriminate H.
  - destruct (hasFile p w0) eqn:Hhas; intros _; cbn [snd]; [|exact Hhas].
    unfold hasFile, withFiles; cbn [tw_files]. apply hasFile_removed.
Qed.

Lemma dump_failure_cleans_up_witness :
  let r := dump env (context (planOf "" "")) failingDump in
  value r = ("", "", Some (Wrapf exitError "mongodump log a b")) /\
  events r =
    [(CombinedOutput
        ["/bin/sh"; "-c";
         "mongodump --archive=/tmp/p-1700000000.gz --gzip --host localhost --port 27017 "]
        3600000000000, Some exitError);
     (Remove "/tmp/p-1700000000.gz", None)] /\
  file_exists env "/tmp/p-1700000000.gz" (world r) = false.
Proof.
  pose proof (dump_failure_cleans_up env (context (planOf "" "")) failingDump
                                     exitError eq_refl)
    as (Hvalue & _ & Hevents & _ & Hgone).
  split; [exact Hvalue|]. split; [exact Hevents|].
  apply Hgone; [exact remove_contract | left; reflexivity].
Defined.

Lemma Run_single_rejects_exclusions_witness :
  let r := Run env "single" "database" excluding appConf config.moduleConfig
               quietWorld in
  events r = [] /\
  commandsOf (events r) = [] /\
  world r = quietWorld /\
  Status (fst (value r)) = 500 /\
  Plan (fst (value r)) = "p" /\
  snd (value r) =
    Some (Errorf "cannot exclude databases with 'single' (default) backup mode").
Proof.
  apply (Run_single_rejects_exclusions env "single" "database" excluding
           appConf config.moduleConfig quietWorld);
    [discriminate | discriminate | left; reflexivity | discriminate].
Defined.

Lemma perDB_requires_uri_witness :
  runDumpPerDBAndUpload env (context (planOf "database" "")) oneDatabase =
    ((errRes (context (planOf "database" "")),
      Some (Errorf "must use MongoDB URI with 'database' backup mode")),
     oneDatabase, []) /\
  events (Run env "single" "database" (planOf "database" "") appConf
              config.moduleConfig oneDatabase) = [].
Proof.
  destruct (perDB_requires_uri env "single" "database"
              (context (planOf "database" "")) oneDatabase eq_refl)
    as [Hfan Hrun].
  split; [exact Hfan|].
  exact (proj1 (Hrun appConf config.moduleConfig eq_refl)).
Defined.

Lemma Run_unknown_mode_witness :
  let r := Run env "single" "database" (planOf "hourly" "") appConf
               config.moduleConfig quietWorld in
  events r = [] /\
  world r = quietWorld /\
  Status (fst (value r)) = 500 /\
  Plan (fst (value r)) = "p" /\
  Timestamp (fst (value r)) = start /\
  snd (value r) = Some (Errorf "unknown mode: 'hourly'").
Proof.
  apply (Run_unknown_mode env "single" "database" (planOf "hourly" "")
           appConf config.moduleConfig quietWorld); discriminate.
Defined.

Lemma fanout_partial_failure_witness :
  let r := runDumpPerDBAndUpload env (context (planOf "database" "mongodb://h"))
                                 twoDatabases in
  snd (value r) = Some (Errorf "1 of 2 database backups failed: B") /\
  Status (fst (value r)) = 500 /\
  Plan (fst (value r)) = "p" /\
  Size (fst (value r)) = 0.
Proof.
  apply (fanout_partial_failure env (context (planOf "database" "mongodb://h"))
                                twoDatabases);
    [discriminate | reflexivity | vm_compute; discriminate].
Defined.

(** C1 at work.  One database [A] is discovered and not excluded.  The
    child context would dump into [/tmp/p-A-1700000000.gz] with [--db A];
    the command the fan-out runs is the parent's: archive
    [/tmp/p-1700000000.gz], no [--db]. *)
Theorem fanout_runs_parent_context :
  let c := context (planOf "database" "mongodb://h") in
  let r := runDumpPerDBAndUpload env c oneDatabase in
  let uri := "--uri " ++ dquote ++ "mongodb://h" ++ dquote ++ " " in
  childRuns env c ["A"] oneDatabase <> [] /\
  database (childContext c "A") = "A" /\
  name (childContext c "A") = "p-A" /\
  dumpCommand (childContext c "A") =
    "mongodump --archive=/tmp/p-A-1700000000.gz --gzip " ++ uri ++ "--db A " /\
  dumpCommand c = "mongodump --archive=/tmp/p-1700000000.gz --gzip " ++ uri /\
  commandsOf (events r) =
    [["/bin/sh"; "-c"; dumpCommand c];
     ["mkdir"; "-p"; "/storage/p"];
     ["mv"; "/tmp/p-1700000000.gz"; "/storage/p"]] /\
  ~ In ["/bin/sh"; "-c"; dumpCommand (childContext c "A")] (commandsOf (events r)).
Proof.
  vm_compute. repeat split; try discriminate.
  intros [H | [H | [H | []]]]; discriminate H.
Qed.

(** An attempt with encryption, SFTP, S3 and Azure configured, S3 refusing:
    SFTP is called with the encrypted file, then S3, and nothing after. *)
Example uploads_stop_at_s3 :
  let r := runDumpAndUpload env (context everywhere) s3Down in
  uploadsOf (events r) =
    [(ToSFTP, "/storage/p/p-1700000000.gz.encrypted", None);
     (ToS3, "/storage/p/p-1700000000.gz.encrypted",
      Some (External "upload refused" false))] /\
  value r =
    ({| Plan := "p"; Timestamp := start; Status := 500; Duration := 0;
        Name := "p-1700000000.gz"; Size := 100 |},
     Some (External "upload refused" false)).
Proof. vm_compute. split; reflexivity. Qed.

End Examples.

(** * Further properties of the package *)

(** ** [dump] and [logToFile] on success *)

Section DumpSuccess.

Context {W : Type} (E : Env W).

(** X1.  When the dump command succeeds, [dump] returns the archive and log
    paths and no error.  It writes the captured output to the log path
    exactly when the output is non-empty, does not look at the outcome of
    that write, and never removes anything. *)
Theorem dump_success (c : dumpConfig) (w : W) :
  let argv := ["/bin/sh"; "-c"; dumpCommand c] in
  let ran := sh_CombinedOutput E argv (dumpTimeout c) w in
  let output := fst (fst ran) in
  let written := ioutil_WriteFile E (mlogOf c) output (snd ran) in
  let r := dump E c w in
  snd (fst ran) = None ->
  value r = (archiveOf c, mlogOf c, None) /\
  (output = "" ->
     events r = [(CombinedOutput argv (dumpTimeout c), None)] /\
     world r = snd ran) /\
  (output <> "" ->
     events r = [(CombinedOutput argv (dumpTimeout c), None);
                 (WriteFile (mlogOf c) output, fst written)] /\
     world r = snd written).
Proof.
  intros argv ran output written r Hok.
  subst r written output. unfold dump, logToFile, bind, extern, guard, ret.
  fold argv. fold ran.
  destruct ran as [[output err] w1]. cbn [fst snd] in *. subst err.
  destruct output as [|a output].
  - cbn. repeat split; intros; congruence.
  - cbn [String.length Nat.ltb Nat.leb].
    destruct (ioutil_WriteFile E (mlogOf c) (String a output) w1) as [[e|] w2];
      cbn; repeat split; intros; congruence.
Qed.

End DumpSuccess.

(** ** Enumeration ([getDBNames]) *)

Section Enumeration.

Context {W : Type} (E : Env W).

(** X2.  [getDBNames] connects with the plan's URI under the ten-minute
    limit.  If the connection fails nothing else is called and the error
    text is [failed to connect to MongoDB: <cause>].  If it succeeds the
    names are listed and the client is disconnected exactly once, also when
    listing failed.  Names are returned only without an error, and an error
    keeps the text of its cause but not the cause itself. *)
Theorem getDBNames_lifecycle (c : dumpConfig) (w : W) :
  let uri := config.Uri (config.Target (plan c)) in
  let connected := mongo_Connect E uri w in
  let listed := client_ListDatabaseNames E (snd connected) in
  let r := getDBNames E c w in
  match fst connected with
  | Some e =>
      r = (([], Some (Errorf ("failed to connect to MongoDB: " ++ Error e))),
           snd connected,
           [(Connect uri (10 * Minute), Some e)])
  | None =>
      events r = [(Connect uri (10 * Minute), None);
                  (ListDatabaseNames, snd (fst listed));
                  (Disconnect, None)] /\
      world r = client_Disconnect E (snd listed) /\
      value r =
        match snd (fst listed) with
        | Some e => ([], Some (Errorf ("failed to list databases: " ++ Error e)))
        | None => (fst (fst listed), None)
        end
  end /\
  (forall e, snd (value r) = Some e -> fst (value r) = [] /\ rootCause e = e).
Proof.
  intros uri connected listed r.
  subst r listed connected. unfold getDBNames, bind, extern, guard, ret.
  fold uri. change mongodbDatabaseListTimeout with (10 * Minute).
  destruct (mongo_Connect E uri w) as [[e|] w1]; cbn [fst snd].
  - split; [reflexivity|]. cbn. intros e0 [= <-]. split; reflexivity.
  - destruct (client_ListDatabaseNames E w1) as [[dbNames [e|]] w2];
      cbn [fst snd]; cbn.
    + split; [repeat split|]. intros e0 [= <-]. split; reflexivity.
    + split; [repeat split|]. intros e0 H; discriminate H.
Qed.

End Enumeration.

(** ** The dump command: filters and time limit *)

Section DumpFilters.

(** X3.  After the connection part the command carries, in this order: the
    database of the context when it is non-empty, the collection of the plan
    when it is non-empty, one [--excludeCollection] piece for every non-empty
    entry of the exclusion list (empty entries are skipped, order and
    repetitions kept), and the extra parameters, which end the command
    verbatim. *)
Theorem dump_filters (c : dumpConfig) :
  let t := config.Target (plan c) in
  dumpCommand c =
    "mongodump --archive=" ++ archiveOf c ++ " --gzip "
    ++ renderFlags (connectionFlags t)
    ++ (if nonempty (database c) then "--db " ++ database c ++ " " else "")
    ++ (if nonempty (config.Collection t)
        then "--collection " ++ config.Collection t ++ " " else "")
    ++ renderFlags (map FlagExcludeCollection
                        (filter nonempty (config.ExcludeCollections t)))
    ++ config.Params t /\
  (forall x, In (FlagExcludeCollection x) (dumpFlags c) <->
             In x (config.ExcludeCollections t) /\ x <> "") /\
  (forall db, In (FlagDb db) (dumpFlags c) <-> db = database c /\ db <> "") /\
  (forall col, In (FlagCollection col) (dumpFlags c) <->
               col = config.Collection t /\ col <> "").
Proof.
  intros t. split.
  - rewrite dumpCommand_flags. unfold dumpFlags, filterFlags. fold t.
    rewrite !renderFlags_app.
    destruct (nonempty (config.Params t)) eqn:Hp;
      [|apply nonempty_false in Hp; rewrite Hp];
      destruct (nonempty (database c));
      destruct (nonempty (config.Collection t));
      cbn [renderFlags renderFlag app];
      rewrite ?append_assoc, ?append_nil_r; reflexivity.
  - assert (Hconn : forall f, In f (connectionFlags t) ->
              isUriFlag f = true \/ isHostPortFlag f = true
              \/ isCredentialsFlag f = true).
    { unfold connectionFlags. intros f.
      destruct (nonempty (config.Uri t)); cbn [In].
      - intros [<- | []]. left; reflexivity.
      - destruct (_ && _); cbn [In]; intros H;
          repeat (destruct H as [<- | H]; [cbn; tauto|]); destruct H. }
    unfold dumpFlags, filterFlags. fold t.
    split; [|split].
    + intros x. rewrite !in_app_iff, in_map_iff. split.
      * intros [H | [H | [H | [(y & Hy & Hin) | H]]]].
        -- apply Hconn in H. cbn in H. intuition discriminate.
        -- destruct (nonempty (database c)); cbn in H; intuition discriminate.
        -- destruct (nonempty (config.Collection t)); cbn in H;
             intuition discriminate.
        -- injection Hy as ->. apply filter_In in Hin.
           destruct Hin as [Hin Hne]. apply nonempty_true in Hne. tauto.
        -- destruct (nonempty (config.Params t)); cbn in H;
             intuition discriminate.
      * intros [Hin Hne]. right; right; right; left. exists x.
        split; [reflexivity|]. apply filter_In.
        split; [exact Hin | now apply nonempty_true].
    + intros db. rewrite !in_app_iff, in_map_iff. split.
      * intros [H | [H | [H | [(y & Hy & _) | H]]]].
        -- apply Hconn in H. cbn in H. intuition discriminate.
        -- destruct (nonempty (database c)) eqn:Hd; cbn in H; [|tauto].
           destruct H as [[= <-] | []]. apply nonempty_true in Hd. tauto.
        -- destruct (nonempty (config.Collection t)); cbn in H;
             intuition discriminate.
        -- discriminate Hy.
        -- destruct (nonempty (config.Params t)); cbn in H;
             intuition discriminate.
      * intros [-> Hne]. right; left. apply nonempty_true in Hne.
        rewrite Hne. left; reflexivity.
    + intros col. rewrite !in_app_iff, in_map_iff. split.
      * intros [H | [H | [H | [(y & Hy & _) | H]]]].
        -- apply Hconn in H. cbn in H. intuition discriminate.
        -- destruct (nonempty (database c)); cbn in H; intuition discriminate.
        -- destruct (nonempty (config.Collection t)) eqn:Hd; cbn in H; [|tauto].
           destruct H as [[= <-] | []]. apply nonempty_true in Hd. tauto.
        -- discriminate Hy.
        -- destruct (nonempty (config.Params t)); cbn in H;
             intuition discriminate.
      * intros [-> Hne]. right; right; left. apply nonempty_true in Hne.
        rewrite Hne. left; reflexivity.
Qed.

(** X4.  The time limit of the dump command is the plan's timeout in
    minutes as long as that fits a [time.Duration]: up to 153722867 minutes
    the limit is [Timeout * 60e9] nanoseconds; from 153722868 to 307445734
    minutes the multiplication wraps around to a negative duration. *)
Theorem dumpTimeout_bounds (c : dumpConfig) :
  let minutes := config.Timeout (config.Scheduler (plan c)) in
  (0 <= minutes <= 153722867 ->
   dumpTimeout c = minutes * 60000000000 /\ 0 <= dumpTimeout c <= maxDuration) /\
  (153722868 <= minutes <= 307445734 ->
   dumpTimeout c = minutes * 60000000000 - 2 ^ 64 /\ dumpTimeout c < 0).
Proof.
  intros minutes. unfold dumpTimeout. fold minutes.
  assert (Hw : forall z, - 2 ^ 63 <= z < 2 ^ 63 -> wrap64 z = z).
  { intros z Hz. unfold wrap64. rewrite Z.mod_small by lia. lia. }
  split; intros Hrange; rewrite (Hw minutes) by lia; unfold Minute.
  - unfold maxDuration. rewrite Hw by lia. lia.
  - assert (Hwrap : wrap64 (minutes * 60000000000)
                    = minutes * 60000000000 - 2 ^ 64).
    { unfold wrap64.
      replace (minutes * 60000000000 + 2 ^ 63)
        with ((minutes * 60000000000 - 2 ^ 63) + 1 * 2 ^ 64) by lia.
      rewrite Z.mod_add by lia. rewrite Z.mod_small by lia. lia. }
    rewrite Hwrap. lia.
Qed.

End DumpFilters.

(** ** Projections of a log through [bind] *)

Section Projections.

Context {W : Type}.

Lemma events_bind {A B} (m : M W A) (k : A -> M W B) (w : W) :
  events (bind m k w)
  = (events (m w) ++ events (k (value (m w)) (world (m w))))%list.
Proof.
  unfold bind, events, value, world. destruct (m w) as [[a w1] e1].
  cbn [fst snd]. destruct (k a w1) as [[b w2] e2]. reflexivity.
Qed.

Lemma world_bind {A B} (m : M W A) (k : A -> M W B) (w : W) :
  world (bind m k w) = world (k (value (m w)) (world (m w))).
Proof.
  unfold bind, value, world. destruct (m w) as [[a w1] e1].
  cbn [fst snd]. destruct (k a w1) as [[b w2] e2]. reflexivity.
Qed.

(** A step whose events project to [l1], followed by the rest. *)
Lemma wp_proj {X A B} (g : Event -> list X) (m : M W A) (k : A -> M W B)
      (w : W) (S : A -> list X -> Prop) (Q : B -> list X -> Prop) :
  wp m w (fun a _ e1 => S a (flat_map g e1)) ->
  (forall a w1 l1, S a l1 ->
     wp (k a) w1 (fun v _ evs => Q v (l1 ++ flat_map g evs)%list)) ->
  wp (bind m k) w (fun v _ evs => Q v (flat_map g evs)).
Proof.
  intros Hm Hk. eapply wp_seq; [exact Hm|].
  cbv beta. intros a w1 e1 HS. eapply wp_conseq; [exact (Hk a w1 _ HS)|].
  cbv beta. intros v _ evs HQ. rewrite flat_map_app. exact HQ.
Qed.

(** A step that projects to nothing, whatever the world. *)
Lemma wp_skip {X A B} (g : Event -> list X) (m : M W A) (k : A -> M W B)
      (w : W) (Q : B -> list X -> Prop) :
  (forall w', flat_map g (events (m w')) = []) ->
  (forall a w1, wp (k a) w1 (fun v _ evs => Q v (flat_map g evs))) ->
  wp (bind m k) w (fun v _ evs => Q v (flat_map g evs)).
Proof.
  intros Hm Hk.
  apply wp_proj with (S := fun _ l => l = []).
  - unfold wp. apply Hm.
  - intros a w1 l1 ->. apply Hk.
Qed.

(** The same for the statement that the whole computation projects to
    nothing. *)
Lemma wp_skip_nil {X A B} (g : Event -> list X) (m : M W A) (k : A -> M W B)
      (w : W) :
  (forall w', flat_map g (events (m w')) = []) ->
  (forall a w1, wp (k a) w1 (fun _ _ evs => flat_map g evs = [])) ->
  wp (bind m k) w (fun _ _ evs => flat_map g evs = []).
Proof. apply (wp_skip g m k w (fun _ l => l = [])). Qed.

End Projections.

(** Prove that a step logs nothing a projection keeps: run the step on an
    arbitrary world and look at every answer. *)
Ltac silence :=
  intros;
  unfold dump, getDBNames, applyRetention, logToFile, upload, run, stat, bind,
    extern, quiet, guard, ret, events;
  cbv beta;
  repeat match goal with
         | |- context [match ?x with _ => _ end] =>
             lazymatch x with
             | context [match _ with _ => _ end] => fail
             | _ => destruct x; cbv beta iota
             end
         end;
  reflexivity.

(** Walk over steps of the chain that a projection does not see, down to
    the final [ret]. *)
Ltac skip_steps :=
  repeat first
    [ apply wp_guard; [intros ? _; reflexivity | intros _]
    | apply wp_skip_nil;
      [ silence
      | let a := fresh "a" in
        intros a ?;
        repeat match goal with
               | x : (_ * _)%type |- _ => destruct x
               end ]
    | apply wp_ret; reflexivity ].

(** The same for a statement [Q] about the value and the projection by [g];
    [leaf] proves the statement at an exit that logged nothing.  Stops at the
    first step the projection sees. *)
Ltac skip_with g Q leaf :=
  repeat first
    [ apply wp_guard; [intros ? _; cbv beta; leaf | intros _]
    | apply (wp_skip g _ _ _ Q);
      [ silence
      | let a := fresh "a" in
        intros a ?;
        repeat match goal with
               | x : (_ * _)%type |- _ => destruct x
               end ] ].

(** ** What one attempt logs *)

Section ChainLog.

Context {W : Type} (E : Env W).

Lemma dump_dumps (c : dumpConfig) (w : W) :
  dumpsOf (events (dump E c w)) =
  [(["/bin/sh"; "-c"; dumpCommand c], dumpTimeout c)].
Proof. unfold dump, dumpsOf. silence. Qed.

Lemma chain_dumps (c : dumpConfig) (w : W) :
  dumpsOf (events (runDumpAndUpload E c w)) =
  [(["/bin/sh"; "-c"; dumpCommand c], dumpTimeout c)].
Proof.
  unfold dumpsOf.
  set (x := (["/bin/sh"; "-c"; dumpCommand c], dumpTimeout c)).
  set (g := fun ev : Event =>
              match ev with
              | (CombinedOutput argv timeout, _) => [(argv, timeout)]
              | _ => []
              end).
  change (wp (runDumpAndUpload E c) w
             (fun v _ evs =>
                (fun (_ : Result * option error) l => l = [x]) v (flat_map g evs))).
  unfold runDumpAndUpload.
  apply (wp_proj g _ _ w (fun _ l => l = [x]) (fun _ l => l = [x])).
  { unfold wp. apply dump_dumps. }
  intros [[archive mlog] err] w1 l1 ->.
  apply wp_conseq with (Q := fun _ _ evs => flat_map g evs = []).
  2: { cbv beta. intros v _ evs ->. reflexivity. }
  subst g. skip_steps.
Qed.

(** X5.  One attempt runs the dump command exactly once, with the plan's
    time limit, whatever else happens. *)
Theorem chain_dumps_once (c : dumpConfig) (w : W) :
  let r := runDumpAndUpload E c w in
  dumpsOf (events r) = [(["/bin/sh"; "-c"; dumpCommand c], dumpTimeout c)] /\
  length (filter (fun ev => match fst ev with
                            | CombinedOutput _ _ => true
                            | _ => false
                            end) (events r)) = 1%nat.
Proof.
  intros r. pose proof (chain_dumps c w) as H. fold r in H.
  split; [exact H|].
  assert (Hlen : forall evs,
            length (filter (fun ev : Event =>
                              match fst ev with
                              | CombinedOutput _ _ => true
                              | _ => false
                              end) evs) = length (dumpsOf evs)).
  { induction evs as [|[call err] evs IH]; [reflexivity|].
    unfold dumpsOf in *. cbn [filter flat_map fst].
    destruct call; cbn [app length]; rewrite ?length_app; cbn [length];
      rewrite IH; reflexivity. }
  rewrite Hlen, H. reflexivity.
Qed.

Lemma applyRetention_shells (path : string) (retention : Z) (w : W) :
  let r := applyRetention E path retention w in
  match value r with
  | None => shellRunsOf (events r) = [gzRetentionCommand path retention;
                                      logRetentionCommand path retention]
  | Some _ => shellRunsOf (events r) = [gzRetentionCommand path retention]
              \/ shellRunsOf (events r) = [gzRetentionCommand path retention;
                                           logRetentionCommand path retention]
  end.
Proof.
  unfold applyRetention, run, bind, extern, guard, ret, value, events.
  fold (gzRetentionCommand path retention).
  fold (logRetentionCommand path retention).
  destruct (sh_Run E (gzRetentionCommand path retention) w) as [[e|] w1]; cbn.
  - left; reflexivity.
  - destruct (sh_Run E (logRetentionCommand path retention) w1) as [[e|] w2];
      cbn; [right|]; reflexivity.
Qed.

(** X10.  With a retention count of zero or less an attempt runs no pruning
    command.  With a positive count the pruning commands are the only shell
    commands run through [Run]: the archive-class command for the plan
    directory, possibly followed by the log-class command, and an attempt
    that succeeds has run both, in that order. *)
Theorem chain_retention (c : dumpConfig) (w : W) :
  let keep := config.Retention (config.Scheduler (plan c)) in
  let r := runDumpAndUpload E c w in
  let gz := gzRetentionCommand (planDir c) keep in
  let log := logRetentionCommand (planDir c) keep in
  (keep <= 0 -> shellRunsOf (events r) = []) /\
  (0 < keep ->
     (exists n, shellRunsOf (events r) = firstn n [gz; log]) /\
     (snd (value r) = None -> shellRunsOf (events r) = [gz; log])).
Proof.
  intros keep r gz log. subst r. unfold shellRunsOf.
  set (g := fun ev : Event =>
              match ev with
              | (RunCmd (sh :: rest), _) =>
                  if (sh =? "/bin/sh")%string then [sh :: rest] else []
              | _ => []
              end).
  split.
  - intros Hkeep.
    change (wp (runDumpAndUpload E c) w (fun _ _ evs => flat_map g evs = [])).
    unfold runDumpAndUpload. fold keep.
    replace (0 <? keep) with false by (symmetry; apply Z.ltb_ge; exact Hkeep).
    subst g. skip_steps.
  - intros Hkeep.
    set (Q := fun (v : Result * option error) (l : list (list string)) =>
                (exists n, l = firstn n [gz; log]) /\
                (snd v = None -> l = [gz; log])).
    change (wp (runDumpAndUpload E c) w (fun v _ evs => Q v (flat_map g evs))).
    unfold runDumpAndUpload. fold keep.
    replace (0 <? keep) with true by (symmetry; apply Z.ltb_lt; exact Hkeep).
    skip_with g Q ltac:(split; [exists O; reflexivity | discriminate]).
    apply (wp_proj g _ _ _
             (fun (err : option error) l =>
                match err with
                | None => l = [gz; log]
                | Some _ => l = [gz] \/ l = [gz; log]
                end) Q).
    { unfold wp. apply (applyRetention_shells (planDir c) keep). }
    intros err ? l1 Hl1. apply wp_guard.
    + intros e ->. cbn [app]. rewrite app_nil_r. split; [|discriminate].
      destruct Hl1 as [-> | ->]; [exists 1%nat | exists 2%nat]; reflexivity.
    + intros ->. subst l1.
      apply wp_conseq with (Q := fun _ _ evs => flat_map g evs = []).
      2: { cbv beta. intros v _ evs ->. split; [exists 2%nat|]; reflexivity. }
      subst g. skip_steps.
Qed.



(** *** Which failures end an attempt *)











(** *** Size and name of the result *)

Lemma wp_any {A B} (m : M W A) (k : A -> M W B) (w : W) (P : B -> Prop) :
  (forall a w1, wp (k a) w1 (fun v _ _ => P v)) ->
  wp (bind m k) w (fun v _ _ => P v).
Proof.
  intros Hk. apply wp_bind. unfold wp at 1. apply Hk.
Qed.

Lemma value_extern {A} (call : Call) (errOf : A -> option error)
      (f : W -> A * W) (w : W) :
  value (extern call errOf f w) = fst (f w)
  /\ world (extern call errOf f w) = snd (f w).
Proof.
  unfold extern, value, world. destruct (f w). split; reflexivity.
Qed.

(** X13.  The size of the result is the size [os.Stat] reported for the
    archive in the temporary directory, recorded as soon as the dump, the
    creation of the plan directory and that [os.Stat] have succeeded, and
    kept whatever fails later.  When one of the three fails the size is 0. *)
Theorem chain_size (c : dumpConfig) (w : W) :
  let d := dump E c w in
  let made := sh_Run E ["mkdir"; "-p"; planDir c] (world d) in
  let info := os_Stat E (archiveOf c) (snd made) in
  Size (fst (value (runDumpAndUpload E c w))) =
    match snd (value d), fst made, snd (fst info) with
    | None, None, None => fst (fst info)
    | _, _, _ => 0
    end.
Proof.
  intros d made info. subst info made d.
  unfold runDumpAndUpload. rewrite value_bind.
  set (w1 := world (dump E c w)).
  destruct (dump_value E c w) as [[Hok Hpaths] | [Hbad _]].
  2: { destruct (value (dump E c w)) as [[archive mlog] [e|]]; [reflexivity|].
       cbn [snd] in Hbad. congruence. }
  destruct (value (dump E c w)) as [[archive mlog] err]. cbn [fst snd] in *.
  subst err. injection Hpaths as -> ->. cbn [guard].
  unfold run, stat. rewrite value_bind.
  destruct (value_extern (RunCmd ["mkdir"; "-p"; planDir c]) (fun e => e)
              (sh_Run E ["mkdir"; "-p"; planDir c]) w1) as [-> ->].
  destruct (sh_Run E ["mkdir"; "-p"; planDir c] w1) as [[e|] w2];
    [reflexivity|]. cbn [fst snd guard].
  rewrite value_bind.
  destruct (value_extern (Stat (archiveOf c)) snd
              (os_Stat E (archiveOf c)) w2) as [-> ->].
  destruct (os_Stat E (archiveOf c) w2) as [[fi [e|]] w3]; [reflexivity|].
  cbn [fst snd guard].
  match goal with
  | |- Size (fst (value (?m ?w0))) = ?n =>
      change (wp m w0 (fun v _ _ => Size (fst v) = n))
  end.
  repeat first
    [ apply wp_guard; [intros ? _; reflexivity | intros _]
    | apply wp_any;
      let a := fresh "a" in
      intros a ?;
      repeat match goal with
             | x : (_ * _)%type |- _ => destruct x
             end
    | apply wp_ret; reflexivity ].
Qed.

Lemma hasSlash_app (a b : string) :
  hasSlash (a ++ b) = hasSlash a || hasSlash b.
Proof.
  induction a as [|x a IH]; [reflexivity|].
  cbn [append hasSlash]. rewrite IH. apply orb_assoc.
Qed.

Lemma split_no_slash (s : string) :
  hasSlash s = false -> filepath_Split s = ("", s).
Proof.
  induction s as [|x s IH]; [reflexivity|].
  cbn [hasSlash filepath_Split]. intros H. apply orb_false_iff in H.
  destruct H as [Hx Hs]. rewrite (IH Hs), Hx. reflexivity.
Qed.

(** [filepath.Split] cuts after the last separator. *)
Lemma split_after_slash (dir file : string) :
  hasSlash file = false ->
  filepath_Split (dir ++ "/" ++ file) = (dir ++ "/", file).
Proof.
  intros Hfile. induction dir as [|x dir IH].
  - cbn [append filepath_Split]. rewrite (split_no_slash file Hfile).
    reflexivity.
  - cbn [append filepath_Split] in *. rewrite IH.
    destruct dir; reflexivity.
Qed.

Lemma uint_no_slash (d : Decimal.uint) :
  hasSlash (NilEmpty.string_of_uint d) = false.
Proof. induction d; cbn [NilEmpty.string_of_uint hasSlash]; auto. Qed.

Lemma itoa_no_slash (z : Z) : hasSlash (itoa z) = false.
Proof.
  unfold itoa, NilZero.string_of_int, NilZero.string_of_uint.
  destruct (Z.to_int z) as [d | d]; destruct d; cbn [hasSlash];
    try reflexivity; apply uint_no_slash.
Qed.

(** X14.  After a successful dump the name in the result is the file name
    of the archive, [<name>-<start in Unix seconds>.gz], on every exit of the
    attempt, provided the name of the context contains no slash; the
    temporary directory never shows in it. *)
Theorem chain_name (c : dumpConfig) (w : W) :
  snd (value (dump E c w)) = None ->
  hasSlash (name c) = false ->
  Name (fst (value (runDumpAndUpload E c w)))
  = name c ++ "-" ++ itoa (Time_Unix (ts c)) ++ ".gz".
Proof.
  intros Hok Hname.
  rewrite (proj1 (proj2 (proj2 (chain_seeded E c w)))).
  destruct (dump_value E c w) as [[_ Hpaths] | [Hbad _]]; [|congruence].
  rewrite Hpaths. cbn [fst]. unfold archiveOf.
  rewrite split_after_slash; [reflexivity|].
  rewrite !hasSlash_app, Hname, itoa_no_slash. reflexivity.
Qed.

End ChainLog.

(** ** More on the fan-out *)

Section FanoutLog.

Context {W : Type} (E : Env W).

Lemma isExcluded_existsb (dbName : string) (excludeDatabases : list string) :
  isExcluded dbName excludeDatabases
  = existsb (String.eqb dbName) excludeDatabases.
Proof.
  induction excludeDatabases as [|x l IH]; [reflexivity|].
  cbn [isExcluded existsb]. rewrite IH.
  destruct (dbName =? x)%string; reflexivity.
Qed.

Lemma attempted_In (excludeDatabases dbNames : list string) (dbName : string) :
  In dbName (attempted excludeDatabases dbNames) <->
  In dbName dbNames /\ ~ In dbName excludeDatabases.
Proof.
  unfold attempted. rewrite filter_In, negb_true_iff.
  split; intros [Hin Hex]; (split; [exact Hin|]).
  - intros Hx. assert (Ht : existsb (String.eqb dbName) excludeDatabases = true).
    { apply existsb_exists. exists dbName. split; [exact Hx|].
      apply String.eqb_refl. }
    congruence.
  - destruct (existsb _ _) eqn:Ht; [|reflexivity].
    apply existsb_exists in Ht. destruct Ht as (x & Hx & Heq).
    apply String.eqb_eq in Heq. subst x. contradiction.
Qed.

Lemma childRuns_names (c : dumpConfig) (dbNames : list string) (w : W) :
  map fst (childRuns E c dbNames w)
  = attempted (config.ExcludeDatabases (config.Target (plan c))) dbNames.
Proof.
  revert w. induction dbNames as [|dbName rest IH]; intros w; [reflexivity|].
  cbn [childRuns attempted filter]. rewrite isExcluded_existsb.
  destruct (existsb _ _); cbn [negb]; [apply IH|].
  cbn [map fst]. f_equal. apply IH.
Qed.

Lemma dbLoop_dumps (c : dumpConfig) (dbNames : list string) :
  forall (attempts totalSize : Z) (failedDBs : list string) (w : W),
    dumpsOf (events (dbLoop E c dbNames attempts totalSize failedDBs w))
    = repeat (["/bin/sh"; "-c"; dumpCommand c], dumpTimeout c)
             (length (attempted (config.ExcludeDatabases (config.Target (plan c)))
                                dbNames)).
Proof.
  induction dbNames as [|dbName rest IH]; intros attempts totalSize failedDBs w;
    [reflexivity|].
  cbn [dbLoop attempted filter]. rewrite isExcluded_existsb.
  destruct (existsb _ _); cbn [negb]; [apply IH|].
  rewrite events_bind. unfold dumpsOf at 1. rewrite flat_map_app.
  fold (dumpsOf (events (runDumpAndUpload E c w))).
  rewrite chain_dumps. cbn [length repeat app]. f_equal.
  destruct (value (runDumpAndUpload E c w)) as [res [e|]]; apply IH.
Qed.

Lemma getDBNames_no_dumps (c : dumpConfig) (w : W) :
  dumpsOf (events (getDBNames E c w)) = [].
Proof. unfold getDBNames, dumpsOf. silence. Qed.

(** The log of the fan-out once enumeration succeeded: enumeration, then
    the loop. *)
Lemma fanout_events (c : dumpConfig) (w : W) :
  config.Uri (config.Target (plan c)) <> "" ->
  snd (value (getDBNames E c w)) = None ->
  events (runDumpPerDBAndUpload E c w)
  = (events (getDBNames E c w)
     ++ events (dbLoop E c (fst (value (getDBNames E c w))) 0 0 []
                       (world (getDBNames E c w))))%list.
Proof.
  intros Huri Hok. unfold runDumpPerDBAndUpload.
  rewrite (eqb_neq_false _ _ Huri). rewrite events_bind. f_equal.
  destruct (value (getDBNames E c w)) as [dbNames err]. cbn [fst snd] in *.
  subst err. cbn [guard]. rewrite events_bind.
  rewrite <- (app_nil_r (events (dbLoop E c dbNames 0 0 [] _))) at 2. f_equal.
  destruct (value (dbLoop E c dbNames 0 0 [] _)) as [[attempts totalSize] failedDBs].
  rewrite events_bind.
  unfold quiet at 1, events at 1. destruct (time_Now E _) as [now w2].
  cbn [snd app].
  destruct (0 <? length failedDBs)%nat; reflexivity.
Qed.

Lemma fanout_dumps (c : dumpConfig) (w : W) :
  config.Uri (config.Target (plan c)) <> "" ->
  snd (value (getDBNames E c w)) = None ->
  dumpsOf (events (runDumpPerDBAndUpload E c w))
  = repeat (["/bin/sh"; "-c"; dumpCommand c], dumpTimeout c)
           (length (attempted (config.ExcludeDatabases (config.Target (plan c)))
                              (fst (value (getDBNames E c w))))).
Proof.
  intros Huri Hok. rewrite fanout_events by assumption.
  unfold dumpsOf. rewrite flat_map_app.
  fold (dumpsOf (events (getDBNames E c w))). rewrite getDBNames_no_dumps.
  apply dbLoop_dumps.
Qed.

Lemma fanout_failed_enumeration (c : dumpConfig) (w : W) (e : error) :
  config.Uri (config.Target (plan c)) <> "" ->
  snd (value (getDBNames E c w)) = Some e ->
  runDumpPerDBAndUpload E c w
  = ((errRes c, Some e), world (getDBNames E c w), events (getDBNames E c w)).
Proof.
  intros Huri Herr. unfold runDumpPerDBAndUpload.
  rewrite (eqb_neq_false _ _ Huri). unfold bind, value, world, events in *.
  destruct (getDBNames E c w) as [[[dbNames err] w1] e1]. cbn [fst snd] in *.
  subst err. cbn. rewrite app_nil_r. reflexivity.
Qed.

Lemma fanout_value_success (c : dumpConfig) (w : W) :
  let listed := getDBNames E c w in
  let runs := childRuns E c (fst (value listed)) (world listed) in
  let loop := dbLoop E c (fst (value listed)) 0 0 [] (world listed) in
  let r := runDumpPerDBAndUpload E c w in
  config.Uri (config.Target (plan c)) <> "" ->
  snd (value listed) = None ->
  failedOf runs = [] ->
  value r =
    ({| Plan := config.Name (plan c);
        Timestamp := Time_UTC (ts c);
        Status := 200;
        Duration := Time_Sub (fst (time_Now E (world loop))) (ts c);
        Name := "";
        Size := succeededSize runs 0 |}, None) /\
  world r = snd (time_Now E (world loop)).
Proof.
  intros listed runs loop r Huri Hlist Hfailed.
  subst r. unfold runDumpPerDBAndUpload.
  rewrite (eqb_neq_false _ _ Huri).
  rewrite value_bind, world_bind. fold listed.
  destruct (value listed) as [dbNames err] eqn:Hv. cbn [fst snd] in *.
  subst err. cbn [guard]. rewrite value_bind, world_bind. fold loop.
  pose proof (dbLoop_value E c dbNames 0 0 [] (world listed) eq_refl) as Hloop.
  fold loop runs in Hloop. rewrite Hloop, Hfailed.
  rewrite value_bind, world_bind.
  unfold quiet, value, world. destruct (time_Now E _) as [now w2].
  cbn. split; reflexivity.
Qed.

(** X6.  Once enumeration succeeded, the fan-out runs one dump command for
    every discovered name that is not literally in the exclusion list, in
    one pass, whether earlier attempts failed or not; names in the list get
    none.  Every one of these commands is the command of the context the
    fan-out was given. *)
Theorem fanout_one_dump_per_database (c : dumpConfig) (w : W) :
  let listed := getDBNames E c w in
  let excluded := config.ExcludeDatabases (config.Target (plan c)) in
  let names := attempted excluded (fst (value listed)) in
  config.Uri (config.Target (plan c)) <> "" ->
  snd (value listed) = None ->
  dumpsOf (events (runDumpPerDBAndUpload E c w))
    = repeat (["/bin/sh"; "-c"; dumpCommand c], dumpTimeout c) (length names) /\
  map fst (childRuns E c (fst (value listed)) (world listed)) = names /\
  (forall dbName, In dbName names <->
                  In dbName (fst (value listed)) /\ ~ In dbName excluded).
Proof.
  intros listed excluded names Huri Hok. split; [|split].
  - apply fanout_dumps; assumption.
  - apply childRuns_names.
  - intros dbName. apply attempted_In.
Qed.

(** X7.  When enumeration fails the fan-out returns the failure result with
    the enumeration error as it is, and its log is the log of the
    enumeration: no dump command is run. *)
Theorem fanout_enumeration_failure (c : dumpConfig) (w : W) (e : error) :
  let listed := getDBNames E c w in
  config.Uri (config.Target (plan c)) <> "" ->
  snd (value listed) = Some e ->
  runDumpPerDBAndUpload E c w = ((errRes c, Some e), world listed, events listed) /\
  dumpsOf (events listed) = [].
Proof.
  intros listed Huri Herr. split; [|apply getDBNames_no_dumps].
  apply fanout_failed_enumeration; assumption.
Qed.

(** X8.  When enumeration succeeded and no child attempt failed, the
    fan-out succeeds: status 200, no artifact name, the duration measured
    from the start of the context to a clock reading taken after the loop,
    and as size the [int64] sum of the sizes the attempts reported. *)
Theorem fanout_success (c : dumpConfig) (w : W) :
  let listed := getDBNames E c w in
  let runs := childRuns E c (fst (value listed)) (world listed) in
  let loop := dbLoop E c (fst (value listed)) 0 0 [] (world listed) in
  let r := runDumpPerDBAndUpload E c w in
  config.Uri (config.Target (plan c)) <> "" ->
  snd (value listed) = None ->
  failedOf runs = [] ->
  value r =
    ({| Plan := config.Name (plan c);
        Timestamp := Time_UTC (ts c);
        Status := 200;
        Duration := Time_Sub (fst (time_Now E (world loop))) (ts c);
        Name := "";
        Size := succeededSize runs 0 |}, None) /\
  world r = snd (time_Now E (world loop)).
Proof. exact (fanout_value_success c w). Qed.

(** X9.  When every discovered name is in the exclusion list, in particular
    when no database is discovered, the fan-out attempts nothing: its log is
    the log of the enumeration, and it reports success with size 0. *)
Theorem fanout_nothing_to_do (c : dumpConfig) (w : W) :
  let listed := getDBNames E c w in
  let r := runDumpPerDBAndUpload E c w in
  config.Uri (config.Target (plan c)) <> "" ->
  snd (value listed) = None ->
  (forall dbName, In dbName (fst (value listed)) ->
                  In dbName (config.ExcludeDatabases (config.Target (plan c)))) ->
  events r = events listed /\
  snd (value r) = None /\
  Status (fst (value r)) = 200 /\
  Size (fst (value r)) = 0.
Proof.
  intros listed r Huri Hlist Hall.
  assert (Hnone : forall dbNames,
            (forall dbName, In dbName dbNames ->
               In dbName (config.ExcludeDatabases (config.Target (plan c)))) ->
            forall a t f w',
              childRuns E c dbNames w' = []
              /\ events (dbLoop E c dbNames a t f w') = []).
  { induction dbNames as [|dbName rest IH]; intros Hin a t f w';
      [split; reflexivity|].
    cbn [childRuns dbLoop].
    assert (Hex : isExcluded dbName
                    (config.ExcludeDatabases (config.Target (plan c))) = true).
    { rewrite isExcluded_existsb. apply existsb_exists. exists dbName.
      split; [apply Hin; left; reflexivity | apply String.eqb_refl]. }
    rewrite Hex. apply IH. intros x Hx. apply Hin. right. exact Hx. }
  specialize (Hnone _ Hall).
  destruct (fanout_value_success c w Huri Hlist) as [Hvalue _].
  { unfold failedOf. rewrite (proj1 (Hnone 0 0 [] _)). reflexivity. }
  fold listed in Hvalue. fold r in Hvalue.
  rewrite (proj1 (Hnone 0 0 [] _)) in Hvalue. cbn [succeededSize] in Hvalue.
  split.
  - subst r. rewrite fanout_events by assumption. fold listed.
    rewrite (proj2 (Hnone 0 0 [] _)). apply app_nil_r.
  - rewrite Hvalue. repeat split.
Qed.

End FanoutLog.

(** ** Order of an attempt, and the dump commands of [Run] *)

Section Order.

Context {W : Type} (E : Env W).

Lemma nonUploadsOf_nil (evs : list Event) :
  nonUploadsOf evs = [] ->
  Forall (fun ev => exists d file, fst ev = Upload d file) evs.
Proof.
  induction evs as [|[call err] evs IH]; intros H; [constructor|].
  unfold nonUploadsOf in H. cbn [flat_map] in H.
  destruct call; try discriminate H.
  constructor; [exists d, file; reflexivity | apply IH, H].
Qed.

(** What the order statement says about a log. *)
Lemma ordered_prepend (e1 evs : list Event) :
  uploadsOf e1 = [] ->
  (exists middle ups, evs = (middle ++ ups)%list /\ uploadsOf middle = []
                      /\ nonUploadsOf ups = []) ->
  exists middle ups, (e1 ++ evs)%list = (middle ++ ups)%list
                     /\ uploadsOf middle = [] /\ nonUploadsOf ups = [].
Proof.
  intros H1 (middle & ups & -> & Hm & Hu).
  exists (e1 ++ middle)%list, ups. split; [apply app_assoc|].
  split; [|exact Hu]. unfold uploadsOf in *. rewrite flat_map_app, H1, Hm.
  reflexivity.
Qed.

Lemma wp_before_uploads {A B} (m : M W A) (k : A -> M W B) (w : W) :
  (forall w', uploadsOf (events (m w')) = []) ->
  (forall a w1,
     wp (k a) w1
        (fun _ _ evs =>
           exists middle ups, evs = (middle ++ ups)%list
                              /\ uploadsOf middle = [] /\ nonUploadsOf ups = [])) ->
  wp (bind m k) w
     (fun _ _ evs =>
        exists middle ups, evs = (middle ++ ups)%list
                           /\ uploadsOf middle = [] /\ nonUploadsOf ups = []).
Proof.
  intros Hm Hk. apply wp_bind. unfold wp at 1.
  eapply wp_conseq; [apply Hk|]. cbv beta. intros _ _ evs H.
  apply ordered_prepend; [apply Hm | exact H].
Qed.

(** X15.  The log of an attempt starts with the dump command, and the
    upload calls come last: it splits into a part without upload calls
    followed by a part of upload calls only.  So nothing is moved, pruned,
    encrypted or removed once the first upload has been called. *)
Theorem chain_order (c : dumpConfig) (w : W) :
  let r := runDumpAndUpload E c w in
  exists err middle ups,
    events r =
      (CombinedOutput ["/bin/sh"; "-c"; dumpCommand c] (dumpTimeout c), err)
      :: (middle ++ ups)%list /\
    uploadsOf middle = [] /\
    dumpsOf middle = [] /\
    Forall (fun ev => exists d file, fst ev = Upload d file) ups.
Proof.
  intros r.
  assert (Hsplit : exists middle ups,
            events r = (middle ++ ups)%list /\ uploadsOf middle = []
            /\ nonUploadsOf ups = []).
  { subst r.
    change (wp (runDumpAndUpload E c) w
               (fun _ _ evs =>
                  exists middle ups, evs = (middle ++ ups)%list
                                     /\ uploadsOf middle = []
                                     /\ nonUploadsOf ups = [])).
    unfold runDumpAndUpload.
    repeat first
      [ apply wp_guard;
        [ intros ? _; exists [], []; repeat split | intros _ ]
      | apply wp_before_uploads;
        [ unfold uploadsOf; silence
        | let a := fresh "a" in
          intros a ?;
          repeat match goal with
                 | x : (_ * _)%type |- _ => destruct x
                 end ] ].
    apply wp_conseq with (Q := fun _ _ evs => nonUploadsOf evs = []).
    2: { cbv beta. intros _ _ evs H. exists [], evs. repeat split. exact H. }
    unfold nonUploadsOf. skip_steps. }
  destruct Hsplit as (middle & ups & Hev & Hm & Hu).
  pose proof (chain_dumps E c w) as Hd. fold r in Hd.
  assert (Hfirst : exists err rest,
            events r = (CombinedOutput ["/bin/sh"; "-c"; dumpCommand c]
                                       (dumpTimeout c), err) :: rest).
  { subst r. unfold runDumpAndUpload. rewrite events_bind.
    assert (Hdump : exists err rest,
              events (dump E c w)
              = (CombinedOutput ["/bin/sh"; "-c"; dumpCommand c]
                                (dumpTimeout c), err) :: rest).
    { unfold dump, logToFile, bind, extern, guard, ret, events.
      destruct (sh_CombinedOutput E _ _ w) as [[output [e|]] w1];
        cbv beta iota.
      - destruct (os_Remove E _ w1) as [rm w2]. eexists; eexists; reflexivity.
      - destruct (0 <? String.length output)%nat;
          [destruct (ioutil_WriteFile E _ _ w1) as [[e|] w2]|];
          eexists; eexists; reflexivity. }
    destruct Hdump as (err & rest & ->). eexists; eexists; reflexivity. }
  destruct Hfirst as (err & rest & Hfirst).
  rewrite Hev in Hfirst, Hd.
  destruct middle as [|ev middle].
  - (* the dump command is no upload, so it is not in [ups] *)
    cbn [app] in Hfirst. rewrite Hfirst in Hu.
    unfold nonUploadsOf in Hu. cbn in Hu. discriminate Hu.
  - cbn [app] in Hfirst. injection Hfirst as Hhead _. subst ev.
    exists err, middle, ups. split; [rewrite Hev; reflexivity|].
    split; [exact Hm|]. split; [|apply nonUploadsOf_nil, Hu].
    unfold dumpsOf in Hd. cbn [app flat_map] in Hd.
    injection Hd as Hd. rewrite flat_map_app in Hd.
    apply app_eq_nil in Hd. exact (proj1 Hd).
Qed.

Variables BackupModeSingle BackupModeDatabase : string.

Lemma Run_events (p : config.Plan) conf modules (w : W) :
  let c := initialContext p conf (fst (time_Now E w)) in
  let w1 := snd (time_Now E w) in
  events (Run E BackupModeSingle BackupModeDatabase p conf modules w) =
  events
    ((if (config.Mode p =? BackupModeDatabase)%string then
        runDumpPerDBAndUpload E c
      else if (config.Mode p =? "")%string
              || (config.Mode p =? BackupModeSingle)%string then
        if negb (length (config.ExcludeDatabases (config.Target p)) =? 0)%nat then
          ret (errRes c,
               Some (Errorf ("cannot exclude databases with '" ++ BackupModeSingle
                             ++ "' (default) backup mode")))
        else runDumpAndUpload E c
      else
        ret (errRes c, Some (Errorf ("unknown mode: '" ++ config.Mode p ++ "'"))))
       w1).
Proof.
  cbv zeta. unfold Run. rewrite events_bind.
  unfold quiet, events at 1, value, world, initialContext.
  destruct (time_Now E w) as [now w1]. reflexivity.
Qed.

(** X16.  How many dump commands one [Run] starts.  In single mode without
    exclusions: one, for the context built from the plan at the time of the
    call.  In per-database mode, once enumeration succeeded: one per
    discovered database that is not excluded, each of them that same
    command.  In every other case (exclusions in single mode, an unknown
    mode, per-database mode without URI or with a failed enumeration):
    none. *)
Theorem Run_dump_commands (p : config.Plan) conf modules (w : W) :
  let c := initialContext p conf (fst (time_Now E w)) in
  let x := (["/bin/sh"; "-c"; dumpCommand c], dumpTimeout c) in
  let listed := getDBNames E c (snd (time_Now E w)) in
  let excluded := config.ExcludeDatabases (config.Target p) in
  let dumps := dumpsOf (events (Run E BackupModeSingle BackupModeDatabase
                                    p conf modules w)) in
  (config.Mode p = BackupModeDatabase ->
     (config.Uri (config.Target p) <> "" -> snd (value listed) = None ->
        dumps = repeat x (length (attempted excluded (fst (value listed))))) /\
     (config.Uri (config.Target p) = "" \/ snd (value listed) <> None ->
        dumps = [])) /\
  (config.Mode p <> BackupModeDatabase ->
     (config.Mode p = "" \/ config.Mode p = BackupModeSingle ->
        excluded = [] -> dumps = [x]) /\
     ((config.Mode p <> "" /\ config.Mode p <> BackupModeSingle)
      \/ excluded <> [] -> dumps = [])).
Proof.
  intros c x listed excluded dumps. subst dumps. rewrite Run_events.
  fold c. split.
  - intros ->. rewrite String.eqb_refl.
    assert (Hnouri : config.Uri (config.Target p) = "" ->
              dumpsOf (events (runDumpPerDBAndUpload E c (snd (time_Now E w)))) = []).
    { intros Huri. unfold runDumpPerDBAndUpload.
      change (config.Uri (config.Target (plan c)))
        with (config.Uri (config.Target p)).
      rewrite Huri. reflexivity. }
    split.
    + intros Huri Hok. apply fanout_dumps; assumption.
    + intros [Huri | Hbad]; [apply Hnouri, Huri|].
      destruct (String.eqb_spec (config.Uri (config.Target p)) "") as [Huri | Huri];
        [apply Hnouri, Huri|].
      fold listed. destruct (snd (value listed)) as [e|] eqn:He; [|congruence].
      rewrite (fanout_failed_enumeration E c _ e Huri He).
      apply getDBNames_no_dumps.
  - intros Hmode. rewrite (eqb_neq_false _ _ Hmode). split.
    + intros Hsingle Hnone.
      replace ((config.Mode p =? "")%string
               || (config.Mode p =? BackupModeSingle)%string) with true.
      2: { symmetry. destruct Hsingle as [-> | ->];
             rewrite ?String.eqb_refl, ?orb_true_r; reflexivity. }
      fold excluded. rewrite Hnone. cbn [length Nat.eqb negb].
      apply chain_dumps.
    + intros [[Hne Hns] | Hex].
      * rewrite (eqb_neq_false _ _ Hne), (eqb_neq_false _ _ Hns). reflexivity.
      * destruct ((config.Mode p =? "")%string
                  || (config.Mode p =? BackupModeSingle)%string);
          [|reflexivity].
        fold excluded. destruct excluded; [congruence | reflexivity].
Qed.

End Order.

(** ** The further properties at work in the scripted world *)

Section MoreExamples.

Import TestWorld Scenarios.

Lemma dump_success_witness :
  let r := dump env (context (planOf "" "")) chattyDump in
  value r = ("/tmp/p-1700000000.gz", "/tmp/p-1700000000.log", None) /\
  events r =
    [(CombinedOutput
        ["/bin/sh"; "-c";
         "mongodump --archive=/tmp/p-1700000000.gz --gzip --host localhost --port 27017 "]
        3600000000000, None);
     (WriteFile "/tmp/p-1700000000.log" "warning", None)].
Proof.
  pose proof (dump_success env (context (planOf "" "")) chattyDump eq_refl)
    as (Hvalue & _ & Hwritten).
  split; [exact Hvalue|]. apply Hwritten. discriminate.
Defined.

Lemma fanout_one_dump_per_database_witness :
  let c := context withoutB in
  let r := runDumpPerDBAndUpload env c threeDatabases in
  dumpsOf (events r)
    = [(["/bin/sh"; "-c"; dumpCommand c], 3600000000000);
       (["/bin/sh"; "-c"; dumpCommand c], 3600000000000)] /\
  map fst (childRuns env c ["A"; "B"; "C"] threeDatabases) = ["A"; "C"].
Proof.
  destruct (fanout_one_dump_per_database env (context withoutB) threeDatabases)
    as (Hdumps & Hnames & _);
    [discriminate | reflexivity |].
  split; [exact Hdumps | exact Hnames].
Defined.

Lemma fanout_enumeration_failure_witness :
  runDumpPerDBAndUpload unreachable (context (planOf "database" "mongodb://h"))
                        oneDatabase
  = ((errRes (context (planOf "database" "mongodb://h")),
      Some (Errorf "failed to connect to MongoDB: connection refused")),
     oneDatabase,
     [(Connect "mongodb://h" 600000000000,
       Some (External "connection refused" false))]).
Proof.
  apply (fanout_enumeration_failure unreachable
           (context (planOf "database" "mongodb://h")) oneDatabase);
    [discriminate | reflexivity].
Defined.

Lemma fanout_success_witness :
  let r := runDumpPerDBAndUpload env (context (planOf "database" "mongodb://h"))
                                 threeDatabases in
  value r =
    ({| Plan := "p"; Timestamp := start; Status := 200; Duration := 0;
        Name := ""; Size := 300 |}, None).
Proof.
  apply (fanout_success env (context (planOf "database" "mongodb://h"))
                        threeDatabases);
    [discriminate | reflexivity | reflexivity].
Defined.

Lemma fanout_nothing_to_do_witness :
  let r := runDumpPerDBAndUpload env (context withoutB) onlyB in
  events r = [(Connect "mongodb://h" 600000000000, None);
              (ListDatabaseNames, None); (Disconnect, None)] /\
  snd (value r) = None /\
  Status (fst (value r)) = 200 /\
  Size (fst (value r)) = 0.
Proof.
  apply (fanout_nothing_to_do env (context withoutB) onlyB);
    [discriminate | reflexivity |].
  intros dbName [<- | []]. left; reflexivity.
Defined.

Lemma chain_name_witness :
  Name (fst (value (runDumpAndUpload env (context (planOf "" "")) quietWorld)))
  = "p-1700000000.gz".
Proof.
  apply (chain_name env (context (planOf "" "")) quietWorld); reflexivity.
Defined.

(** The move of the archive fails: the size is already recorded, the one
    failure in the log is the move, and its error is the root cause. *)
Example move_fails :
  let c := context (planOf "" "") in
  let r := runDumpAndUpload env c moveFails in
  value r =
    ({| Plan := "p"; Timestamp := start; Status := 500; Duration := 0;
        Name := "p-1700000000.gz"; Size := 100 |},
     Some (Wrapf exitError
                 "moving file from /tmp/p-1700000000.gz to /storage/p failed")) /\
  failuresOf c (events r)
    = [(RunCmd ["mv"; "/tmp/p-1700000000.gz"; "/storage/p"], Some exitError)].
Proof. vm_compute. split; reflexivity. Qed.

(** With two generations kept, a successful attempt prunes archives, then
    logs, from the third newest on. *)
Example prunes_both_classes :
  let r := runDumpAndUpload env (context keepTwo) quietWorld in
  snd (value r) = None /\
  shellRunsOf (events r) =
    [["/bin/sh"; "-c";
      "cd /storage/p && rm -f $(ls -1t *.gz *.gz.encrypted | tail -n +3)"];
     ["/bin/sh"; "-c"; "cd /storage/p && rm -f $(ls -1t *.log | tail -n +3)"]].
Proof. vm_compute. split; reflexivity. Qed.

End MoreExamples.
